(** * WhisperX transcriber: model lifecycle and pipeline orchestration

    A shallow embedding of [whisperx_transcriber/transcriber.py], of
    [whisperx_transcriber/gui.py] (its transcriber, its worker thread and the
    handlers of its main window) and of [package_files] of [setup.py].

    The Python code is a thin shell around third-party libraries (whisperx,
    pyannote, torch, yaml, PyQt5).  Every call that leaves the repository is a
    field of the class [Library]: it reads and updates an abstract [World] and
    either returns a value or raises.  The repository's own code is written in
    a small state-and-exception monad [M] whose state is the attribute
    dictionary of the one [WhisperXTranscriber] instance ([self]) and which
    records every external call, every [print] and every Qt signal in a trace
    of [Event]s. *)

From Stdlib Require Import String List Bool ZArith DecimalString.
Import ListNotations.
Open Scope string_scope.

Set Implicit Arguments.

(** ** Exceptions and outcomes *)

(** An instance of Python's [Exception], identified with its [str(e)].
    [BaseException]s that are not [Exception]s (KeyboardInterrupt, SystemExit)
    are outside the model. *)
Definition exn : Type := string.

Inductive res (A : Type) : Type :=
| Ok (a : A)
| Raise (e : exn).

Arguments Ok {A} a.
Arguments Raise {A} e.

(** ** The external libraries *)

Class Library : Type := {
  World : Type;
  (** opaque handles owned by the libraries *)
  Model : Type;          (* what whisperx.load_model returns *)
  AlignModel : Type;
  Metadata : Type;       (* the alignment metadata dict *)
  Pipeline : Type;       (* a SpeakerDiarization object *)
  File : Type;
  Config : Type;         (* the parsed config.yaml *)
  Params : Type;         (* config["pipeline"] *)
  DiarizeModel : Type;   (* the instantiated diarization pipeline *)
  Audio : Type;          (* the waveform whisperx.load_audio returns *)
  Result : Type;         (* the result dict *)
  Segments : Type;       (* result["segments"] *)
  Annotation : Type;     (* what the diarization pipeline returns *)

  (** os, torch *)
  os_path_exists : string -> World -> bool;
  os_path_join : list string -> string;
  (** [os.path.dirname(__file__)]; both modules live in the same package
      directory *)
  module_dirname : string;
  torch_cuda_is_available : World -> bool;
  torch_cuda_get_device_capability : World -> nat * nat;

  (** whisperx and the objects it returns *)
  whisperx_load_model : string -> string -> string -> World -> res Model * World;
  getattr_model_name : Model -> World -> res string * World;
  whisperx_load_align_model :
    string -> string -> World -> res (AlignModel * Metadata) * World;
  getitem_language_code : Metadata -> World -> res string * World;
  whisperx_load_audio : string -> World -> res Audio * World;
  model_transcribe : Model -> Audio -> nat -> World -> res Result * World;
  getitem_language : Result -> World -> res string * World;
  getitem_segments : Result -> World -> res Segments * World;
  whisperx_align :
    Segments -> option AlignModel -> option Metadata -> Audio -> string ->
    bool -> World -> res Result * World;
  whisperx_assign_word_speakers :
    Annotation -> Result -> World -> res Result * World;

  (** pyannote, yaml, builtins *)
  SpeakerDiarization : string -> string -> string -> World -> res Pipeline * World;
  builtin_open : string -> string -> World -> res File * World;
  yaml_safe_load : File -> World -> res Config * World;
  getitem_pipeline : Config -> World -> res Params * World;
  pipeline_instantiate : Pipeline -> Params -> World -> res DiarizeModel * World;
  (** [self.diarize_model(x)]: transcriber.py passes the waveform,
      gui.py the path *)
  call_diarize_model : DiarizeModel -> Audio + string -> World -> res Annotation * World;

  (** truth value of a result dict (an empty dict is falsy) *)
  result_truthy : Result -> bool
}.

Section Core.
Context {L : Library}.

(** ** The transcriber object *)

(** The attributes [__init__] creates, in its order. *)
Record Transcriber : Type := mkTranscriber {
  device : string;
  compute_type : string;
  model : option Model;
  align_model : option AlignModel;
  align_metadata : option Metadata;
  diarize_model : option DiarizeModel;
  model_name : string
}.

(** ** Trace events: one per external call (with its arguments and its
    outcome), per [print], per Qt signal *)

Inductive Event : Type :=
| EvPrint (s : string)
| EvTraceback (e : exn)
| EvLoadModel (name dev ctype : string) (r : res Model)
| EvGetModelName (m : Model) (r : res string)
| EvLoadAlignModel (language_code dev : string) (r : res (AlignModel * Metadata))
| EvGetLanguageCode (md : Metadata) (r : res string)
| EvLoadAudio (path : string) (r : res Audio)
| EvTranscribe (m : Model) (a : Audio) (batch_size : nat) (r : res Result)
| EvGetLanguage (x : Result) (r : res string)
| EvGetSegments (x : Result) (r : res Segments)
| EvAlign (segs : Segments) (am : option AlignModel) (md : option Metadata)
          (a : Audio) (dev : string) (return_char_alignments : bool)
          (r : res Result)
| EvAssignWordSpeakers (ann : Annotation) (x : Result) (r : res Result)
| EvSpeakerDiarization (segmentation embedding clustering : string)
                       (r : res Pipeline)
| EvOpen (path mode : string) (r : res File)
| EvYamlSafeLoad (f : File) (r : res Config)
| EvGetPipeline (c : Config) (r : res Params)
| EvInstantiate (p : Pipeline) (ps : Params) (r : res DiarizeModel)
| EvDiarize (d : DiarizeModel) (input : Audio + string) (r : res Annotation)
| EvEmitComplete (x : Result)
| EvEmitError (msg : string).

(** ** The monad *)

Record Out (A : Type) : Type := mkOut {
  outcome : res A;
  self_of : Transcriber;
  world_of : World;
  events : list Event
}.

Definition M (A : Type) : Type := Transcriber -> World -> Out A.

Definition ret {A} (a : A) : M A :=
  fun self w => mkOut (Ok a) self w [].

Definition raise {A} (e : exn) : M A :=
  fun self w => mkOut (Raise e) self w [].

Definition bind {A B} (m : M A) (k : A -> M B) : M B :=
  fun self w =>
    match m self w with
    | mkOut (Ok a) self1 w1 evs1 =>
        match k a self1 w1 with
        | mkOut r self2 w2 evs2 => mkOut r self2 w2 (evs1 ++ evs2)
        end
    | mkOut (Raise e) self1 w1 evs1 => mkOut (Raise e) self1 w1 evs1
    end.

(** [try: body  except Exception as e: handler e].  The state and the world
    the body reached when it raised are what the handler starts from. *)
Definition try_except {A} (body : M A) (handler : exn -> M A) : M A :=
  fun self w =>
    match body self w with
    | mkOut (Ok a) self1 w1 evs1 => mkOut (Ok a) self1 w1 evs1
    | mkOut (Raise e) self1 w1 evs1 =>
        match handler e self1 w1 with
        | mkOut r self2 w2 evs2 => mkOut r self2 w2 (evs1 ++ evs2)
        end
    end.

Definition get_self : M Transcriber :=
  fun self w => mkOut (Ok self) self w [].

Definition put_self (self' : Transcriber) : M unit :=
  fun _ w => mkOut (Ok tt) self' w [].

(** An external call: run it on the world, record it with its outcome. *)
Definition ext {X} (ev : res X -> Event) (f : World -> res X * World) : M X :=
  fun self w =>
    match f w with
    | (r, w') => mkOut r self w' [ev r]
    end.

Definition log (e : Event) : M unit :=
  fun self w => mkOut (Ok tt) self w [e].

Definition print (s : string) : M unit := log (EvPrint s).

End Core.

Declare Scope py_scope.
Delimit Scope py_scope with py.
Notation "x <- m ;; k" := (bind m (fun x => k))
  (at level 61, m at next level, right associativity) : py_scope.
Notation "m ;; k" := (bind m (fun _ => k))
  (at level 61, right associativity) : py_scope.
Open Scope py_scope.

(** ** Attribute assignments on [self] *)

Section Setters.
Context {L : Library}.

Definition set_self_model (m : option Model) : M unit :=
  self <- get_self ;;
  put_self (mkTranscriber (device self) (compute_type self) m
              (align_model self) (align_metadata self) (diarize_model self)
              (model_name self)).

Definition set_self_align_model (am : option AlignModel) : M unit :=
  self <- get_self ;;
  put_self (mkTranscriber (device self) (compute_type self) (model self)
              am (align_metadata self) (diarize_model self)
              (model_name self)).

Definition set_self_align_metadata (md : option Metadata) : M unit :=
  self <- get_self ;;
  put_self (mkTranscriber (device self) (compute_type self) (model self)
              (align_model self) md (diarize_model self)
              (model_name self)).

Definition set_self_diarize_model (d : option DiarizeModel) : M unit :=
  self <- get_self ;;
  put_self (mkTranscriber (device self) (compute_type self) (model self)
              (align_model self) (align_metadata self) d
              (model_name self)).

Definition set_self_model_name (n : string) : M unit :=
  self <- get_self ;;
  put_self (mkTranscriber (device self) (compute_type self) (model self)
              (align_model self) (align_metadata self) (diarize_model self)
              n).

(** [WhisperXTranscriber.__init__], the same in both files. *)
Definition init (w : World) : Transcriber :=
  mkTranscriber
    (if torch_cuda_is_available w then "cuda" else "cpu")
    (if torch_cuda_is_available w
        && Nat.leb 7 (fst (torch_cuda_get_device_capability w))
     then "float16" else "int8")
    None None None None
    "small.en".

End Setters.

(** ** transcriber.py *)

Module TranscriberPy.
Section WithLibrary.
Context {L : Library}.

(** [load_model] (lines 18-22).  [or] short-circuits: the cached model's
    [model_name] attribute is read only when a model is cached, and that read
    can raise. *)
Definition load_model : M unit :=
  self <- get_self ;;
  stale <- match model self with
           | None => ret true
           | Some m =>
               n <- ext (EvGetModelName m) (getattr_model_name m) ;;
               ret (negb (String.eqb n (model_name self)))
           end ;;
  if (stale : bool) then
    print ("Loading WhisperX model: " ++ model_name self) ;;
    m <- ext (EvLoadModel (model_name self) (device self) (compute_type self))
             (whisperx_load_model (model_name self) (device self)
                                  (compute_type self)) ;;
    set_self_model (Some m) ;;
    print "WhisperX model loaded successfully."
  else ret tt.

(** [load_align_model] (lines 24-28).  Subscripting an [align_metadata] that
    is [None] raises TypeError. *)
Definition load_align_model (language_code : string) : M unit :=
  self <- get_self ;;
  stale <- match align_model self with
           | None => ret true
           | Some _ =>
               c <- match align_metadata self with
                    | None => raise "'NoneType' object is not subscriptable"
                    | Some md =>
                        ext (EvGetLanguageCode md) (getitem_language_code md)
                    end ;;
               ret (negb (String.eqb c language_code))
           end ;;
  if (stale : bool) then
    print ("Loading alignment model for language: " ++ language_code) ;;
    p <- ext (EvLoadAlignModel language_code (device self))
             (whisperx_load_align_model language_code (device self)) ;;
    set_self_align_model (Some (fst p)) ;;
    set_self_align_metadata (Some (snd p)) ;;
    print "Alignment model loaded successfully."
  else ret tt.

(** [load_diarize_model] (lines 30-47).  transcriber.py never imports [yaml]:
    once the config file is open, evaluating [yaml.safe_load] raises
    NameError. *)
Definition load_diarize_model : M unit :=
  self <- get_self ;;
  match diarize_model self with
  | None =>
      print "Loading diarization model..." ;;
      let models_path := os_path_join [module_dirname; "models"] in
      diarization_pipeline <-
        (let segmentation :=
           os_path_join [models_path; "segmentation-3.0"; "pytorch_model.bin"] in
         let embedding :=
           os_path_join [models_path; "wespeaker-voxceleb-resnet34-LM";
                         "pytorch_model.bin"] in
         ext (EvSpeakerDiarization segmentation embedding
                                   "AgglomerativeClustering")
             (SpeakerDiarization segmentation embedding
                                 "AgglomerativeClustering")) ;;
      (let path :=
         os_path_join [models_path; "speaker-diarization-3.1"; "config.yaml"] in
       f <- ext (EvOpen path "r") (builtin_open path "r") ;;
       raise "name 'yaml' is not defined")
  | Some _ => ret tt
  end.

(** [transcribe_audio] (lines 49-74).  [self.load_model()] is called before
    the [try] block. *)
Definition transcribe_body (audio_file_path : string)
    (align_timestamps diarize : bool) : M (option Result) :=
  audio <- ext (EvLoadAudio audio_file_path)
               (whisperx_load_audio audio_file_path) ;;
  self <- get_self ;;
  result <- match model self with
            | None => raise "'NoneType' object has no attribute 'transcribe'"
            | Some m => ext (EvTranscribe m audio 16) (model_transcribe m audio 16)
            end ;;
  result <- (if align_timestamps then
               language <- ext (EvGetLanguage result) (getitem_language result) ;;
               load_align_model language ;;
               segs <- ext (EvGetSegments result) (getitem_segments result) ;;
               self <- get_self ;;
               ext (EvAlign segs (align_model self) (align_metadata self)
                            audio (device self) false)
                   (whisperx_align segs (align_model self) (align_metadata self)
                                   audio (device self) false)
             else ret result) ;;
  result <- (if diarize then
               load_diarize_model ;;
               self <- get_self ;;
               diarize_segments <-
                 match diarize_model self with
                 | None => raise "'NoneType' object is not callable"
                 | Some d => ext (EvDiarize d (inl audio))
                                 (call_diarize_model d (inl audio))
                 end ;;
               ext (EvAssignWordSpeakers diarize_segments result)
                   (whisperx_assign_word_speakers diarize_segments result)
             else ret result) ;;
  ret (Some result).

Definition transcribe_handler (e : exn) : M (option Result) :=
  print ("An error occurred during transcription: " ++ e) ;;
  log (EvTraceback e) ;;
  ret None.

Definition transcribe_audio (audio_file_path : string)
    (align_timestamps diarize : bool) : M (option Result) :=
  fun self w =>
    (if negb (os_path_exists audio_file_path w) then
       print ("Error: Audio file not found at " ++ audio_file_path) ;;
       ret None
     else
       load_model ;;
       try_except
         (transcribe_body audio_file_path align_timestamps diarize)
         transcribe_handler) self w.

(** [set_model] (lines 76-78). *)
Definition set_model (name : string) : M unit :=
  set_self_model_name name ;;
  set_self_model None.

End WithLibrary.
End TranscriberPy.

(** ** gui.py *)

Module GuiPy.
Section WithLibrary.
Context {L : Library}.

(** [WhisperXTranscriber.load_model] (lines 22-26). *)
Definition load_model : M unit :=
  self <- get_self ;;
  stale <- match model self with
           | None => ret true
           | Some m =>
               n <- ext (EvGetModelName m) (getattr_model_name m) ;;
               ret (negb (String.eqb n (model_name self)))
           end ;;
  if (stale : bool) then
    print ("Loading WhisperX model: " ++ model_name self) ;;
    m <- ext (EvLoadModel (model_name self) (device self) (compute_type self))
             (whisperx_load_model (model_name self) (device self)
                                  (compute_type self)) ;;
    set_self_model (Some m) ;;
    print "WhisperX model loaded successfully."
  else ret tt.

(** [WhisperXTranscriber.load_align_model] (lines 28-32). *)
Definition load_align_model (language_code : string) : M unit :=
  self <- get_self ;;
  stale <- match align_model self with
           | None => ret true
           | Some _ =>
               c <- match align_metadata self with
                    | None => raise "'NoneType' object is not subscriptable"
                    | Some md =>
                        ext (EvGetLanguageCode md) (getitem_language_code md)
                    end ;;
               ret (negb (String.eqb c language_code))
           end ;;
  if (stale : bool) then
    print ("Loading alignment model for language: " ++ language_code) ;;
    p <- ext (EvLoadAlignModel language_code (device self))
             (whisperx_load_align_model language_code (device self)) ;;
    set_self_align_model (Some (fst p)) ;;
    set_self_align_metadata (Some (snd p)) ;;
    print "Alignment model loaded successfully."
  else ret tt.

(** [WhisperXTranscriber.load_diarize_model] (lines 34-52); gui.py imports
    [yaml]. *)
Definition load_diarize_model : M unit :=
  self <- get_self ;;
  match diarize_model self with
  | None =>
      print "Loading diarization model..." ;;
      let models_path := os_path_join [module_dirname; "models"] in
      diarization_pipeline <-
        (let segmentation :=
           os_path_join [models_path; "segmentation-3.0"; "pytorch_model.bin"] in
         let embedding :=
           os_path_join [models_path; "wespeaker-voxceleb-resnet34-LM";
                         "pytorch_model.bin"] in
         ext (EvSpeakerDiarization segmentation embedding
                                   "AgglomerativeClustering")
             (SpeakerDiarization segmentation embedding
                                 "AgglomerativeClustering")) ;;
      let config_path :=
        os_path_join [models_path; "speaker-diarization-3.1"; "config.yaml"] in
      f <- ext (EvOpen config_path "r") (builtin_open config_path "r") ;;
      config <- ext (EvYamlSafeLoad f) (yaml_safe_load f) ;;
      params <- ext (EvGetPipeline config) (getitem_pipeline config) ;;
      d <- ext (EvInstantiate diarization_pipeline params)
               (pipeline_instantiate diarization_pipeline params) ;;
      set_self_diarize_model (Some d) ;;
      print "Diarization model loaded successfully."
  | Some _ => ret tt
  end.

(** [WhisperXTranscriber.transcribe_audio] (lines 54-79). *)
Definition transcribe_body (audio_file_path : string)
    (align_timestamps diarize : bool) : M (option Result) :=
  audio <- ext (EvLoadAudio audio_file_path)
               (whisperx_load_audio audio_file_path) ;;
  self <- get_self ;;
  result <- match model self with
            | None => raise "'NoneType' object has no attribute 'transcribe'"
            | Some m => ext (EvTranscribe m audio 16) (model_transcribe m audio 16)
            end ;;
  result <- (if align_timestamps then
               language <- ext (EvGetLanguage result) (getitem_language result) ;;
               load_align_model language ;;
               segs <- ext (EvGetSegments result) (getitem_segments result) ;;
               self <- get_self ;;
               ext (EvAlign segs (align_model self) (align_metadata self)
                            audio (device self) false)
                   (whisperx_align segs (align_model self) (align_metadata self)
                                   audio (device self) false)
             else ret result) ;;
  result <- (if diarize then
               load_diarize_model ;;
               self <- get_self ;;
               diarize_segments <-
                 match diarize_model self with
                 | None => raise "'NoneType' object is not callable"
                 | Some d => ext (EvDiarize d (inr audio_file_path))
                                 (call_diarize_model d (inr audio_file_path))
                 end ;;
               ext (EvAssignWordSpeakers diarize_segments result)
                   (whisperx_assign_word_speakers diarize_segments result)
             else ret result) ;;
  ret (Some result).

Definition transcribe_handler (e : exn) : M (option Result) :=
  print ("An error occurred during transcription: " ++ e) ;;
  log (EvTraceback e) ;;
  ret None.

Definition transcribe_audio (audio_file_path : string)
    (align_timestamps diarize : bool) : M (option Result) :=
  fun self w =>
    (if negb (os_path_exists audio_file_path w) then
       print ("Error: Audio file not found at " ++ audio_file_path) ;;
       ret None
     else
       load_model ;;
       try_except
         (transcribe_body audio_file_path align_timestamps diarize)
         transcribe_handler) self w.

(** [WhisperXTranscriber.set_model] (lines 81-83). *)
Definition set_model (name : string) : M unit :=
  set_self_model_name name ;;
  set_self_model None.

(** [TranscriptionThread] (lines 85-105).  Its [transcriber] attribute is a
    reference to the main window's transcriber, the object the monad's state
    stands for; the other three attributes are plain values. *)
Record TranscriptionThread : Type := mkThread {
  audio_file : string;
  align_timestamps : bool;
  diarize : bool
}.

(** [if result:] on [None] or on a result dict. *)
Definition truthy (result : option Result) : bool :=
  match result with
  | None => false
  | Some x => result_truthy x
  end.

(** [TranscriptionThread.run] (lines 97-105).  [transcription_complete] is a
    [pyqtSignal(dict)]; the branch emitting it is only reached with a truthy
    result, which is a dict. *)
Definition run (t : TranscriptionThread) : M unit :=
  try_except
    (result <- transcribe_audio (audio_file t) (align_timestamps t)
                                (diarize t) ;;
     if truthy result then
       match result with
       | Some x => log (EvEmitComplete x)
       | None => ret tt
       end
     else
       log (EvEmitError
              "Transcription failed. Please check the console for errors."))
    (fun e => log (EvEmitError e)).

(** [MainWindow.change_model] (lines 176-178), on the window's transcriber. *)
Definition change_model (name : string) : M unit :=
  set_self_model_name name ;;
  set_self_model None.

End WithLibrary.
End GuiPy.

(** ** Reading the trace *)

Section Traces.
Context {L : Library}.

(** The three stages of the pipeline; the third is the diarization call
    followed by the assignment of its speakers to the current result. *)
Inductive StageKind : Type :=
| Transcription
| Alignment
| Diarization
| SpeakerAssignment.

Definition stage_kind (e : Event) : option StageKind :=
  match e with
  | EvTranscribe _ _ _ _ => Some Transcription
  | EvAlign _ _ _ _ _ _ _ => Some Alignment
  | EvDiarize _ _ _ => Some Diarization
  | EvAssignWordSpeakers _ _ _ => Some SpeakerAssignment
  | _ => None
  end.

Definition pick_stage (e : Event) : list Event :=
  match stage_kind e with Some _ => [e] | None => [] end.

Definition pick_kind (e : Event) : list StageKind :=
  match stage_kind e with Some k => [k] | None => [] end.

(** The stage calls of a trace, in the order they were made, and their
    kinds. *)
Definition stages : list Event -> list Event := flat_map pick_stage.

Definition stage_kinds : list Event -> list StageKind := flat_map pick_kind.

(** The stages a call with these flags is to run, in order. *)
Definition planned (align_timestamps diarize : bool) : list StageKind :=
  Transcription
    :: (if align_timestamps then [Alignment] else [])
    ++ (if diarize then [Diarization; SpeakerAssignment] else []).

Definition is_prefix {A} (l1 l2 : list A) : Prop :=
  exists rest, l2 = (l1 ++ rest)%list.

(** The Qt signals of a trace. *)
Definition is_signal (e : Event) : bool :=
  match e with
  | EvEmitComplete _ | EvEmitError _ => true
  | _ => false
  end.

Definition signals (evs : list Event) : list Event := filter is_signal evs.

(** Calls that load a model, as decidable tests on events. *)
Definition is_acoustic_load (e : Event) : bool :=
  match e with EvLoadModel _ _ _ _ => true | _ => false end.


Definition is_diarization_load (e : Event) : bool :=
  match e with
  | EvSpeakerDiarization _ _ _ _ | EvOpen _ _ _ | EvYamlSafeLoad _ _
  | EvGetPipeline _ _ | EvInstantiate _ _ _ => true
  | _ => false
  end.

Definition loads_acoustic (evs : list Event) : bool :=
  existsb is_acoustic_load evs.


Definition loads_diarization (evs : list Event) : bool :=
  existsb is_diarization_load evs.

(** [self.model is None or self.model.model_name != self.model_name], as a
    proposition about the state and the world [load_model] starts from. *)
Definition acoustic_model_stale (self : Transcriber) (w : World) : Prop :=
  model self = None \/
  exists m n w',
    model self = Some m /\ getattr_model_name m w = (Ok n, w') /\
    n <> model_name self.


(** An external call that raised. *)
Definition raised (e : Event) : bool :=
  match e with
  | EvLoadModel _ _ _ (Raise _)
  | EvGetModelName _ (Raise _)
  | EvLoadAlignModel _ _ (Raise _)
  | EvGetLanguageCode _ (Raise _)
  | EvLoadAudio _ (Raise _)
  | EvTranscribe _ _ _ (Raise _)
  | EvGetLanguage _ (Raise _)
  | EvGetSegments _ (Raise _)
  | EvAlign _ _ _ _ _ _ (Raise _)
  | EvAssignWordSpeakers _ _ (Raise _)
  | EvSpeakerDiarization _ _ _ (Raise _)
  | EvOpen _ _ (Raise _)
  | EvYamlSafeLoad _ (Raise _)
  | EvGetPipeline _ (Raise _)
  | EvInstantiate _ _ (Raise _)
  | EvDiarize _ _ (Raise _) => true
  | _ => false
  end.

(** Every external call of the trace returned. *)
Definition every_call_returned (evs : list Event) : Prop :=
  existsb raised evs = false.
(** The world a loader is in when it comes to call the library: the test of
    its [if], which reads the attribute or the key of what is cached, has
    been evaluated by then. *)
Definition world_at_load (self : Transcriber) (w : World) : World :=
  match model self with
  | None => w
  | Some m => snd (getattr_model_name m w)
  end.

End Traces.

(** ** The two files side by side *)

Inductive SourceFile : Type := transcriber_py | gui_py.

Section Dispatch.
Context {L : Library}.

Definition load_model_in (f : SourceFile) : M unit :=
  match f with
  | transcriber_py => TranscriberPy.load_model
  | gui_py => GuiPy.load_model
  end.

Definition load_align_model_in (f : SourceFile) : string -> M unit :=
  match f with
  | transcriber_py => TranscriberPy.load_align_model
  | gui_py => GuiPy.load_align_model
  end.

Definition load_diarize_model_in (f : SourceFile) : M unit :=
  match f with
  | transcriber_py => TranscriberPy.load_diarize_model
  | gui_py => GuiPy.load_diarize_model
  end.

Definition transcribe_body_in (f : SourceFile) :
    string -> bool -> bool -> M (option Result) :=
  match f with
  | transcriber_py => TranscriberPy.transcribe_body
  | gui_py => GuiPy.transcribe_body
  end.

Definition transcribe_handler_in (f : SourceFile) : exn -> M (option Result) :=
  match f with
  | transcriber_py => TranscriberPy.transcribe_handler
  | gui_py => GuiPy.transcribe_handler
  end.

Definition transcribe_audio_in (f : SourceFile) :
    string -> bool -> bool -> M (option Result) :=
  match f with
  | transcriber_py => TranscriberPy.transcribe_audio
  | gui_py => GuiPy.transcribe_audio
  end.

Definition set_model_in (f : SourceFile) : string -> M unit :=
  match f with
  | transcriber_py => TranscriberPy.set_model
  | gui_py => GuiPy.set_model
  end.

(** What each file hands to [self.diarize_model]. *)
Definition diarize_input (f : SourceFile) (audio_file_path : string)
    (audio : Audio) : Audio + string :=
  match f with
  | transcriber_py => inl audio
  | gui_py => inr audio_file_path
  end.

(** A call that returned [returned] ran exactly the planned stages, each on
    the data of the one before it. *)
Definition ran_pipeline (f : SourceFile) (audio_file_path : string)
    (align_timestamps diarize : bool) (evs : list Event)
    (returned : Result) : Prop :=
  exists m audio r1,
    In (EvLoadAudio audio_file_path (Ok audio)) evs /\
    match align_timestamps, diarize with
    | false, false =>
        stages evs = [EvTranscribe m audio 16 (Ok r1)] /\ returned = r1
    | true, false =>
        exists segs am md dev r2,
          stages evs = [EvTranscribe m audio 16 (Ok r1);
                        EvAlign segs am md audio dev false (Ok r2)] /\
          In (EvGetSegments r1 (Ok segs)) evs /\ returned = r2
    | false, true =>
        exists d ann r3,
          stages evs =
            [EvTranscribe m audio 16 (Ok r1);
             EvDiarize d (diarize_input f audio_file_path audio) (Ok ann);
             EvAssignWordSpeakers ann r1 (Ok r3)] /\
          returned = r3
    | true, true =>
        exists segs am md dev r2 d ann r3,
          stages evs =
            [EvTranscribe m audio 16 (Ok r1);
             EvAlign segs am md audio dev false (Ok r2);
             EvDiarize d (diarize_input f audio_file_path audio) (Ok ann);
             EvAssignWordSpeakers ann r2 (Ok r3)] /\
          In (EvGetSegments r1 (Ok segs)) evs /\ returned = r3
    end.

(** The cached diarization pipeline is still [d] and nothing tried to build
    another one. *)
Definition keeps_diarize_model {A} (d : DiarizeModel) (o : Out A) : Prop :=
  diarize_model (self_of o) = Some d /\ loads_diarization (events o) = false.

Definition diarize_cached (d : DiarizeModel) (self : Transcriber) : Prop :=
  diarize_model self = Some d.

Definition not_diarization_load (e : Event) : bool :=
  negb (is_diarization_load e).

Definition not_signal (e : Event) : bool := negb (is_signal e).

(** [m] keeps the invariant [P] of the transcriber and traces only events
    that pass the test [Q]. *)
Definition respects {A} (P : Transcriber -> Prop) (Q : Event -> bool)
    (m : M A) : Prop :=
  forall self w,
    P self -> P (self_of (m self w)) /\ forallb Q (events (m self w)) = true.

(** What an event shows as loaded, per kind of model, and the attribute the
    kind is cached in. *)
Definition pick_acoustic (e : Event) : list Model :=
  match e with
  | EvLoadModel _ _ _ (Ok m) => [m]
  | _ => []
  end.

Definition pick_alignment (e : Event) : list (AlignModel * Metadata) :=
  match e with
  | EvLoadAlignModel _ _ (Ok p) => [p]
  | _ => []
  end.

Definition pick_diarization (e : Event) : list DiarizeModel :=
  match e with
  | EvInstantiate _ _ (Ok d) => [d]
  | _ => []
  end.

Definition pick_traceback (e : Event) : list exn :=
  match e with
  | EvTraceback e => [e]
  | _ => []
  end.

Definition loaded_acoustic : list Event -> list Model :=
  flat_map pick_acoustic.

Definition loaded_alignment : list Event -> list (AlignModel * Metadata) :=
  flat_map pick_alignment.

Definition loaded_diarization : list Event -> list DiarizeModel :=
  flat_map pick_diarization.

Definition tracebacks : list Event -> list exn := flat_map pick_traceback.

(** [align_model] and [align_metadata] are assigned together. *)
Definition align_pair (self : Transcriber) : option (AlignModel * Metadata) :=
  match align_model self, align_metadata self with
  | Some am, Some md => Some (am, md)
  | _, _ => None
  end.

(** [m] shows nothing as loaded and leaves the cache attribute alone. *)
Definition frames {X A} (pick : Event -> list X)
    (field : Transcriber -> option X) (m : M A) : Prop :=
  forall self w,
    field (self_of (m self w)) = field self
    /\ flat_map pick (events (m self w)) = [].

(** Whatever [m] shows as loaded is in the cache attribute when [m] ends. *)
Definition caches {X A} (pick : Event -> list X)
    (field : Transcriber -> option X) (m : M A) : Prop :=
  forall self w x,
    In x (flat_map pick (events (m self w))) ->
    field (self_of (m self w)) = Some x.

(** The one signal [run] is to emit for what [transcribe_audio] did. *)
Definition completion_signal (r : res (option Result)) : Event :=
  match r with
  | Ok (Some x) =>
      if result_truthy x then EvEmitComplete x
      else EvEmitError
             "Transcription failed. Please check the console for errors."
  | Ok None =>
      EvEmitError "Transcription failed. Please check the console for errors."
  | Raise e => EvEmitError e
  end.

(** Every model a trace shows as loaded is the one in the cache. *)
Definition loaded_models_cached (evs : list Event) (self : Transcriber) : Prop :=
  (forall name dev ctype m,
      In (EvLoadModel name dev ctype (Ok m)) evs -> model self = Some m) /\
  (forall language_code dev am md,
      In (EvLoadAlignModel language_code dev (Ok (am, md))) evs ->
      align_model self = Some am /\ align_metadata self = Some md) /\
  (forall p ps d,
      In (EvInstantiate p ps (Ok d)) evs -> diarize_model self = Some d).

End Dispatch.

(** ** A simulated library, to run the code on *)

(** Which external calls fail, and whether the object [whisperx.load_model]
    returns has a [model_name] attribute. *)
Record Behaviour : Type := mkBehaviour {
  fail_load_model : bool;
  model_has_name : bool;
  fail_align : bool
}.

Definition well_behaved : Behaviour := mkBehaviour false true false.
Definition broken_load_model : Behaviour := mkBehaviour true true false.
Definition broken_align : Behaviour := mkBehaviour false true true.
Definition nameless_model : Behaviour := mkBehaviour false false false.

(** The world counts the calls made so far; a model is the name it was loaded
    under, a result the list of stages that produced it. *)
Definition sim (b : Behaviour) : Library := {|
  World := nat;
  Model := string;
  AlignModel := string;
  Metadata := string;
  Pipeline := unit;
  File := string;
  Config := unit;
  Params := unit;
  DiarizeModel := unit;
  Audio := string;
  Result := list string;
  Segments := list string;
  Annotation := string + string;
  os_path_exists := fun p _ => negb (String.eqb p "missing.wav");
  os_path_join := String.concat "/";
  module_dirname := "/pkg/whisperx_transcriber";
  torch_cuda_is_available := fun _ => false;
  torch_cuda_get_device_capability := fun _ => (0, 0);
  whisperx_load_model := fun name _ _ w =>
    (if fail_load_model b then Raise "cannot load model" else Ok name, S w);
  getattr_model_name := fun m w =>
    (if model_has_name b then Ok m
     else Raise "object has no attribute 'model_name'", w);
  whisperx_load_align_model := fun code _ w => (Ok (code, code), S w);
  getitem_language_code := fun md w => (Ok md, w);
  whisperx_load_audio := fun p w => (Ok p, S w);
  model_transcribe := fun _ _ _ w => (Ok ["transcribed"], S w);
  getitem_language := fun _ w => (Ok "en", w);
  getitem_segments := fun x w => (Ok x, w);
  whisperx_align := fun segs _ _ _ _ _ w =>
    (if fail_align b then Raise "alignment failed"
     else Ok (segs ++ ["aligned"])%list, S w);
  whisperx_assign_word_speakers := fun _ x w =>
    (Ok (x ++ ["speakers"])%list, S w);
  SpeakerDiarization := fun _ _ _ w => (Ok tt, S w);
  builtin_open := fun p _ w => (Ok p, S w);
  yaml_safe_load := fun _ w => (Ok tt, S w);
  getitem_pipeline := fun _ w => (Ok tt, w);
  pipeline_instantiate := fun _ _ w => (Ok tt, S w);
  call_diarize_model := fun _ input w => (Ok input, S w);
  result_truthy := fun x => negb (Nat.eqb (List.length x) 0)
|}.

(** A transcriber as [__init__] leaves it, and one that has been through a
    full run of gui.py's pipeline. *)
Definition fresh (b : Behaviour) : @Transcriber (sim b) := @init (sim b) 0.

Definition warmed_up : @Transcriber (sim well_behaved) :=
  self_of (@GuiPy.transcribe_audio (sim well_behaved) "a.wav" true true
             (fresh well_behaved) 0).

(** ** What a loader may change *)

Section Contracts.
Context {L : Library}.

(** [self'] differs from [self] in the [model] attribute at most. *)
Definition only_model_changed (self self' : Transcriber) : Prop :=
  self' = mkTranscriber (device self) (compute_type self) (model self')
                        (align_model self) (align_metadata self)
                        (diarize_model self) (model_name self).

Definition only_alignment_changed (self self' : Transcriber) : Prop :=
  self' = mkTranscriber (device self) (compute_type self) (model self)
                        (align_model self') (align_metadata self')
                        (diarize_model self) (model_name self).

Definition only_diarize_model_changed (self self' : Transcriber) : Prop :=
  self' = mkTranscriber (device self) (compute_type self) (model self)
                        (align_model self) (align_metadata self)
                        (diarize_model self') (model_name self).

(** A loader that returns has its model in the cache; one that raises has
    left the transcriber as it was. *)
Definition all_or_nothing (cached : Transcriber -> Prop) (self : Transcriber)
    (o : Out unit) : Prop :=
  match outcome o with
  | Ok _ => cached (self_of o)
  | Raise _ => self_of o = self
  end.

(** The arguments of the stage calls of a trace. *)
Definition pick_transcribe_call (e : Event) : list (Model * Audio * nat) :=
  match e with
  | EvTranscribe m a b _ => [(m, a, b)]
  | _ => []
  end.

Definition pick_align_call (e : Event)
  : list (option AlignModel * option Metadata * string * bool) :=
  match e with
  | EvAlign _ am md _ dev c _ => [(am, md, dev, c)]
  | _ => []
  end.

Definition pick_diarize_call (e : Event) : list DiarizeModel :=
  match e with
  | EvDiarize d _ _ => [d]
  | _ => []
  end.

End Contracts.

Section Configuration.
Context {L : Library}.

(** The three attributes that say what to load and where. *)
Definition configured (dev ctype name : string) (self : Transcriber) : Prop :=
  device self = dev /\ compute_type self = ctype /\ model_name self = name.

Definition any_event (e : Event) : bool := true.

End Configuration.

(** ** setup.py *)

Module SetupPy.
Section WithLibrary.
Context {L : Library}.

(** What [os.walk(directory)] yields: (path, directories, filenames), in the
    order of the walk. *)
Variable os_walk : string -> list (string * list string * list string).

(** [package_files] (lines 4-9): two nested loops appending to [paths]. *)
Definition package_files (directory : string) : list string :=
  fold_left
    (fun paths entry =>
       let '(path, directories, filenames) := entry in
       fold_left
         (fun paths filename =>
            (paths ++ [os_path_join [".."; path; filename]])%list)
         filenames paths)
    (os_walk directory) [].

(** The paths one entry of the walk contributes. *)
Definition files_of (entry : string * list string * list string)
  : list string :=
  let '(path, _, filenames) := entry in
  map (fun filename => os_path_join [".."; path; filename]) filenames.

(** [extra_files] (line 11). *)
Definition extra_files : list string :=
  package_files "whisperx_transcriber/models".

End WithLibrary.
End SetupPy.

(** ** gui.py: the main window *)

(** A segment of a result dict, by the keys [display_transcription] reads;
    [None] is a missing key. *)
Record Segment (Seconds : Type) : Type := mkSegment {
  seg_start : option Seconds;
  seg_end : option Seconds;
  seg_text : option string;
  seg_speaker : option string
}.

Record ResultDict (Seconds : Type) : Type := mkResultDict {
  dict_segments : option (list (Segment Seconds));
  dict_text : option string
}.

(** What the window asks of PyQt5, [os.path] and the file system. *)
Class Desktop {L : Library} : Type := {
  Seconds : Type;                               (* a float of seconds *)
  format_2f : Seconds -> string;                (* format(x, ".2f") *)
  as_dict : Result -> ResultDict Seconds;       (* the dict a signal carries *)
  os_path_basename : string -> string;
  (** the file name a dialog returns, empty when it is cancelled *)
  get_open_file_name : World -> string * World;
  get_save_file_name : World -> string * World;
  (** The state of a [QTextEdit].  What [append] makes of a string (whether
      it starts a paragraph, whether it takes the string for rich text) and
      what [clear] keeps are Qt's: the window only calls them. *)
  TextEdit : Type;
  new_text_edit : TextEdit;                       (* QTextEdit() *)
  text_edit_clear : TextEdit -> TextEdit;         (* QTextEdit.clear *)
  text_edit_append : string -> TextEdit -> TextEdit;   (* QTextEdit.append *)
  to_plain_text : TextEdit -> string;             (* QTextEdit.toPlainText *)
  (** [with open(name, 'w', encoding='utf-8') as f: f.write(text)] *)
  write_text : string -> string -> World -> res unit * World
}.

Inductive MessageBox : Type :=
| Information (title text : string)
| Critical (title text : string).

Module WindowPy.
Section WithDesktop.
Context {L : Library} {D : Desktop}.

(** The attributes of [MainWindow] and the state of its widgets that the
    handlers read or write.  [audio_file] does not exist until [select_file]
    assigns it; [output_text] is the state of the read-only text edit, which
    changes through the calls of the handlers only. *)
Record MainWindow : Type := mkWindow {
  transcriber : Transcriber;
  audio_file : option string;
  transcription_thread : option GuiPy.TranscriptionThread;
  file_label : string;
  model_combo : string;
  align_checkbox : bool;
  diarize_checkbox : bool;
  transcribe_button : bool;      (* isEnabled *)
  save_button : bool;            (* isEnabled *)
  progress_bar : Z;
  output_text : TextEdit
}.

Definition set_transcriber (x : Transcriber) (win : MainWindow) : MainWindow :=
  mkWindow x (audio_file win) (transcription_thread win) (file_label win)
           (model_combo win) (align_checkbox win) (diarize_checkbox win)
           (transcribe_button win) (save_button win) (progress_bar win)
           (output_text win).

Definition set_audio_file (x : option string) (win : MainWindow) : MainWindow :=
  mkWindow (transcriber win) x (transcription_thread win) (file_label win)
           (model_combo win) (align_checkbox win) (diarize_checkbox win)
           (transcribe_button win) (save_button win) (progress_bar win)
           (output_text win).

Definition set_transcription_thread (x : option GuiPy.TranscriptionThread)
    (win : MainWindow) : MainWindow :=
  mkWindow (transcriber win) (audio_file win) x (file_label win)
           (model_combo win) (align_checkbox win) (diarize_checkbox win)
           (transcribe_button win) (save_button win) (progress_bar win)
           (output_text win).

Definition set_file_label (x : string) (win : MainWindow) : MainWindow :=
  mkWindow (transcriber win) (audio_file win) (transcription_thread win) x
           (model_combo win) (align_checkbox win) (diarize_checkbox win)
           (transcribe_button win) (save_button win) (progress_bar win)
           (output_text win).

Definition set_model_combo (x : string) (win : MainWindow) : MainWindow :=
  mkWindow (transcriber win) (audio_file win) (transcription_thread win)
           (file_label win) x (align_checkbox win) (diarize_checkbox win)
           (transcribe_button win) (save_button win) (progress_bar win)
           (output_text win).

Definition set_align_checkbox (x : bool) (win : MainWindow) : MainWindow :=
  mkWindow (transcriber win) (audio_file win) (transcription_thread win)
           (file_label win) (model_combo win) x (diarize_checkbox win)
           (transcribe_button win) (save_button win) (progress_bar win)
           (output_text win).

Definition set_diarize_checkbox (x : bool) (win : MainWindow) : MainWindow :=
  mkWindow (transcriber win) (audio_file win) (transcription_thread win)
           (file_label win) (model_combo win) (align_checkbox win) x
           (transcribe_button win) (save_button win) (progress_bar win)
           (output_text win).

Definition set_transcribe_button (x : bool) (win : MainWindow) : MainWindow :=
  mkWindow (transcriber win) (audio_file win) (transcription_thread win)
           (file_label win) (model_combo win) (align_checkbox win)
           (diarize_checkbox win) x (save_button win) (progress_bar win)
           (output_text win).

Definition set_save_button (x : bool) (win : MainWindow) : MainWindow :=
  mkWindow (transcriber win) (audio_file win) (transcription_thread win)
           (file_label win) (model_combo win) (align_checkbox win)
           (diarize_checkbox win) (transcribe_button win) x (progress_bar win)
           (output_text win).

Definition set_output_text (x : TextEdit) (win : MainWindow) : MainWindow :=
  mkWindow (transcriber win) (audio_file win) (transcription_thread win)
           (file_label win) (model_combo win) (align_checkbox win)
           (diarize_checkbox win) (transcribe_button win) (save_button win)
           (progress_bar win) x.

(** [QProgressBar.setValue] on a bar of range 0..100: a value outside the
    range leaves the bar as it is. *)
Definition progress_set_value (v : Z) (win : MainWindow) : MainWindow :=
  if (Z.leb 0 v && Z.leb v 100)%bool then
    mkWindow (transcriber win) (audio_file win) (transcription_thread win)
             (file_label win) (model_combo win) (align_checkbox win)
             (diarize_checkbox win) (transcribe_button win) (save_button win)
             v (output_text win)
  else win.

(** [self.output_text.append(line)] and [self.output_text.clear()]. *)
Definition append (line : string) (win : MainWindow) : MainWindow :=
  set_output_text (text_edit_append line (output_text win)) win.

Definition clear (win : MainWindow) : MainWindow :=
  set_output_text (text_edit_clear (output_text win)) win.

(** The items of the model combo box (line 130). *)
Definition model_items : list string :=
  ["tiny.en"; "base.en"; "small.en"; "medium.en"; "large-v2"].

(** [MainWindow.__init__] and [init_ui] (lines 108-167).  The combo box is
    set to "small.en" before [change_model] is connected to it. *)
Definition new_window (w : World) : MainWindow :=
  mkWindow (init w) None None "No file selected" "small.en" false false
           false false 0%Z new_text_edit.

(** [select_file] (lines 169-174). *)
Definition select_file (win : MainWindow) (w : World) : MainWindow * World :=
  match get_open_file_name w with
  | (file_name, w') =>
      if negb (String.eqb file_name "") then
        (set_transcribe_button true
           (set_audio_file (Some file_name)
              (set_file_label (os_path_basename file_name) win)), w')
      else (win, w')
  end.

(** [change_model] (lines 176-178), the slot of the combo box's
    [currentTextChanged]. *)
Definition change_model (name : string) (win : MainWindow) (w : World)
  : MainWindow :=
  set_transcriber (self_of (GuiPy.change_model name (transcriber win) w)) win.

(** [start_transcription] (lines 180-194).  Reading [self.audio_file] before
    any file was selected raises AttributeError, after the widgets were
    reset.  The thread it starts is returned. *)
Definition start_transcription (win : MainWindow)
  : res GuiPy.TranscriptionThread * MainWindow :=
  let win :=
    append "Transcription in progress..."
      (clear
         (progress_set_value 0
            (set_save_button false (set_transcribe_button false win)))) in
  let align_timestamps := align_checkbox win in
  let diarize := diarize_checkbox win in
  match audio_file win with
  | None => (Raise "'MainWindow' object has no attribute 'audio_file'", win)
  | Some file =>
      let t := GuiPy.mkThread file align_timestamps diarize in
      (Ok t, set_transcription_thread (Some t) win)
  end.

(** [update_progress] (lines 196-197). *)
Definition update_progress (value : Z) (win : MainWindow) : MainWindow :=
  progress_set_value value win.

(** The loop of [display_transcription] (lines 202-208), over the segments
    still to show.  A missing key raises KeyError, whose [str] is the quoted
    key; what was appended before stays. *)
Fixpoint display_segments (segments : list (Segment Seconds))
    (win : MainWindow) : res unit * MainWindow :=
  match segments with
  | [] => (Ok tt, win)
  | segment :: rest =>
      let timestamps :=
        if align_checkbox win then
          match seg_start segment with
          | None => (Raise "'start'", win)
          | Some t0 =>
              match seg_end segment with
              | None => (Raise "'end'", win)
              | Some t1 =>
                  (Ok tt,
                   append ("[" ++ format_2f t0 ++ "s - " ++ format_2f t1
                               ++ "s]") win)
              end
          end
        else (Ok tt, win) in
      match timestamps with
      | (Raise e, win) => (Raise e, win)
      | (Ok _, win) =>
          let win :=
            if diarize_checkbox win then
              match seg_speaker segment with
              | Some speaker => append ("Speaker " ++ speaker ++ ":") win
              | None => win
              end
            else win in
          match seg_text segment with
          | None => (Raise "'text'", win)
          | Some text => display_segments rest (append "" (append text win))
          end
      end
  end.

(** [display_transcription] (lines 199-214). *)
Definition display_transcription (result : ResultDict Seconds)
    (win : MainWindow) : res unit * MainWindow :=
  let win := clear win in
  let shown :=
    match dict_segments result with
    | Some segments => display_segments segments win
    | None =>
        (Ok tt,
         append (match dict_text result with
                 | Some text => text
                 | None => "No transcription available."
                 end) win)
    end in
  match shown with
  | (Raise e, win) => (Raise e, win)
  | (Ok _, win) =>
      (Ok tt,
       progress_set_value 100
         (set_save_button true (set_transcribe_button true win)))
  end.

(** [display_error] (lines 216-220). *)
Definition display_error (error_message : string) (win : MainWindow)
  : MainWindow :=
  progress_set_value 0
    (set_transcribe_button true
       (append ("Error: " ++ error_message) (clear win))).

(** [save_output] (lines 222-230): the message boxes shown. *)
Definition save_output (win : MainWindow) (w : World)
  : list MessageBox * World :=
  match get_save_file_name w with
  | (file_name, w1) =>
      if negb (String.eqb file_name "") then
        match write_text file_name (to_plain_text (output_text win)) w1 with
        | (Ok _, w2) =>
            ([Information "Save Successful"
                          "The output has been saved successfully."], w2)
        | (Raise e, w2) =>
            ([Critical "Save Failed"
                       ("An error occurred while saving the file: " ++ e)],
             w2)
        end
      else ([], w1)
  end.

(** *** The application: the window, the world and the worker threads that
    were started and have not finished *)

Record App : Type := mkApp {
  window : MainWindow;
  world : World;
  running : list GuiPy.TranscriptionThread
}.

Definition new_app (w : World) : App := mkApp (new_window w) w [].

(** The user picks a file; the user clicks Transcribe. *)
Definition after_select_file (a : App) : App :=
  mkApp (fst (select_file (window a) (world a)))
        (snd (select_file (window a) (world a)))
        (running a).

Definition after_click_transcribe (a : App) : App :=
  mkApp (snd (start_transcription (window a)))
        (world a)
        (match fst (start_transcription (window a)) with
         | Ok t => t :: running a
         | Raise _ => running a
         end).

(** A signal of a worker thread reaches the slot connected to it. *)
Definition deliver (win : MainWindow) (signal : Event) : MainWindow :=
  match signal with
  | EvEmitComplete x => snd (display_transcription (as_dict x) win)
  | EvEmitError msg => display_error msg win
  | _ => win
  end.

(** A worker thread runs to its end on the shared transcriber and its
    signals are delivered, in the order they were emitted.  The run is taken
    as one step: what another thread or the user does to the transcriber in
    the meantime is not interleaved with it. *)
Definition finish (t : GuiPy.TranscriptionThread) (win : MainWindow)
    (w : World) : MainWindow * World :=
  let o := GuiPy.run t (transcriber win) w in
  (fold_left deliver (signals (events o))
             (set_transcriber (self_of o) win),
   world_of o).

(** What the user and the threads can do next.  A disabled button is not
    clicked; the combo box calls [change_model] when its text changes to
    another of its items. *)
Inductive step : App -> App -> Prop :=
| SelectFile (a : App) :
    step a (mkApp (fst (select_file (window a) (world a)))
                  (snd (select_file (window a) (world a)))
                  (running a))
| PickModel (a : App) (name : string) :
    In name model_items ->
    name <> model_combo (window a) ->
    step a (mkApp (change_model name (set_model_combo name (window a))
                                (world a))
                  (world a) (running a))
| ToggleAlign (a : App) :
    step a (mkApp (set_align_checkbox (negb (align_checkbox (window a)))
                                      (window a))
                  (world a) (running a))
| ToggleDiarize (a : App) :
    step a (mkApp (set_diarize_checkbox (negb (diarize_checkbox (window a)))
                                        (window a))
                  (world a) (running a))
| ClickTranscribe (a : App) :
    transcribe_button (window a) = true ->
    step a (mkApp (snd (start_transcription (window a)))
                  (world a)
                  (match fst (start_transcription (window a)) with
                   | Ok t => t :: running a
                   | Raise _ => running a
                   end))
| ClickSave (a : App) :
    save_button (window a) = true ->
    step a (mkApp (window a) (snd (save_output (window a) (world a)))
                  (running a))
| ThreadFinishes (a : App) (before after : list GuiPy.TranscriptionThread)
    (t : GuiPy.TranscriptionThread) :
    running a = (before ++ t :: after)%list ->
    step a (mkApp (fst (finish t (window a) (world a)))
                  (snd (finish t (window a) (world a)))
                  (before ++ after)).

Inductive reachable : App -> Prop :=
| reach_new (w : World) : reachable (new_app w)
| reach_step (a a' : App) : reachable a -> step a a' -> reachable a'.

(** *** What is appended for a well-formed segment *)

(** A text edit after [append] was called on it with each of [lines], in
    their order. *)
Definition appended (lines : list string) (pane : TextEdit) : TextEdit :=
  fold_left (fun pane line => text_edit_append line pane) lines pane.

Definition has_keys (align : bool) (segment : Segment Seconds) : Prop :=
  seg_text segment <> None
  /\ (align = true -> seg_start segment <> None /\ seg_end segment <> None).

Definition shown_text {A} (show : A -> string) (x : option A) : string :=
  match x with Some a => show a | None => "" end.

Definition timestamp_line (segment : Segment Seconds) : string :=
  "[" ++ shown_text format_2f (seg_start segment) ++ "s - "
      ++ shown_text format_2f (seg_end segment) ++ "s]".

Definition speaker_lines (segment : Segment Seconds) : list string :=
  match seg_speaker segment with
  | Some speaker => ["Speaker " ++ speaker ++ ":"]
  | None => []
  end.

Definition segment_lines (align diarize : bool) (segment : Segment Seconds)
  : list string :=
  ((if align then [timestamp_line segment] else [])
   ++ (if diarize then speaker_lines segment else [])
   ++ [shown_text (fun s => s) (seg_text segment); ""])%list.

(** The window invariant. *)
Definition consistent (a : App) : Prop :=
  let win := window a in
  (transcribe_button win = true -> audio_file win <> None)
  /\ (running a <> [] -> audio_file win <> None)
  /\ (save_button win = true -> transcribe_button win = true)
  /\ model_combo win = model_name (transcriber win)
  /\ In (model_combo win) model_items
  /\ (progress_bar win = 0%Z \/ progress_bar win = 100%Z)
  /\ file_label win
     = match audio_file win with
       | Some file => os_path_basename file
       | None => "No file selected"
       end.

End WithDesktop.
End WindowPy.

(** A simulated desktop: times are whole seconds, the file dialogs always
    return a name, every string of a result is a segment of text with
    timestamps and no speaker, and the text edit keeps the strings it was
    given since it was last cleared. *)
Definition two_decimals (n : nat) : string :=
  NilZero.string_of_uint (Nat.to_uint n) ++ ".00".

Definition sim_desktop (b : Behaviour) : @Desktop (sim b) :=
  @Build_Desktop (sim b)
    nat
    two_decimals
    (fun x : list string =>
       mkResultDict
         (Some (map (fun s => mkSegment (Some 0) (Some 1) (Some s) None) x))
         None)
    (fun p => p)
    (fun w : nat => ("a.wav", S w))
    (fun w : nat => ("out.txt", S w))
    (list string)
    []
    (fun _ => [])
    (fun line pane => (pane ++ [line])%list)
    (String.concat "/")
    (fun _ _ (w : nat) => (Ok tt, S w)).

(** The simulated application after a file was picked, and after Transcribe
    was clicked, a file picked again and Transcribe clicked again before any
    thread finished. *)
Definition app_with_file
  : @WindowPy.App (sim well_behaved) (sim_desktop well_behaved) :=
  @WindowPy.after_select_file (sim well_behaved) (sim_desktop well_behaved)
    (@WindowPy.new_app (sim well_behaved) (sim_desktop well_behaved) 0).

Definition app_started_twice
  : @WindowPy.App (sim well_behaved) (sim_desktop well_behaved) :=
  WindowPy.after_click_transcribe
    (@WindowPy.after_select_file (sim well_behaved)
       (sim_desktop well_behaved)
       (WindowPy.after_click_transcribe app_with_file)).

(** Two segments, the second without its ['text']. *)
Definition broken_result : ResultDict nat :=
  mkResultDict
    (Some [mkSegment (Some 0) (Some 1) (Some "hello") (Some "SPEAKER_00");
           mkSegment (Some 1) (Some 2) None None])
    None.

(** * Properties *)

Unset Implicit Arguments.

(** ** Proof tools: run the code symbolically, one external call at a time *)

Ltac py_unfold :=
  cbv [load_model_in load_align_model_in load_diarize_model_in
       transcribe_body_in transcribe_handler_in transcribe_audio_in
       set_model_in
       TranscriberPy.transcribe_audio TranscriberPy.transcribe_body
       TranscriberPy.transcribe_handler TranscriberPy.load_model
       TranscriberPy.load_align_model TranscriberPy.load_diarize_model
       TranscriberPy.set_model
       GuiPy.transcribe_audio GuiPy.transcribe_body
       GuiPy.transcribe_handler GuiPy.load_model
       GuiPy.load_align_model GuiPy.load_diarize_model
       GuiPy.set_model GuiPy.change_model
       bind ret raise try_except ext get_self put_self log print
       set_self_model set_self_align_model set_self_align_metadata
       set_self_diarize_model set_self_model_name].

Ltac py_simpl :=
  cbn [app fst snd negb
       device compute_type model align_model align_metadata diarize_model
       model_name outcome self_of world_of events].

(** Case split on the innermost scrutinee the execution is stuck on. *)
Ltac py_step :=
  match goal with
  | |- context [match ?x with _ => _ end] =>
      lazymatch x with
      | context [match _ with _ => _ end] => fail
      | _ => destruct x eqn:?
      end
  end; py_simpl.

Ltac py_run := py_unfold; py_simpl; repeat py_step.

Ltac inv H := inversion H; subst; clear H.

Section Properties.
Context {L : Library}.

Lemma string_eqb_negb_true (a b : string) :
  negb (String.eqb a b) = true <-> a <> b.
Proof.
  destruct (String.eqb_spec a b); simpl; split; congruence.
Qed.

(** *** Unfolding [transcribe_audio] *)

(** Any property of the two blocks of [transcribe_audio] is a property of
    [transcribe_audio]. *)
Lemma transcribe_audio_cases (f : SourceFile) (path : string)
    (align_timestamps diarize : bool) (self : Transcriber) (w : World)
    (Phi : Out (option Result) -> Prop) :
  Phi ((print ("Error: Audio file not found at " ++ path) ;; ret None)
         self w) ->
  Phi ((load_model_in f ;;
        try_except (transcribe_body_in f path align_timestamps diarize)
                   (transcribe_handler_in f)) self w) ->
  Phi (transcribe_audio_in f path align_timestamps diarize self w).
Proof.
  intros Hmissing Hpresent.
  destruct f;
    cbv [transcribe_audio_in TranscriberPy.transcribe_audio
         GuiPy.transcribe_audio];
    destruct (os_path_exists path w); cbn [negb]; assumption.
Qed.

(** On a path that exists [transcribe_audio] is its second block. *)
Lemma transcribe_audio_present (f : SourceFile) (path : string)
    (align_timestamps diarize : bool) (self : Transcriber) (w : World) :
  os_path_exists path w = true ->
  transcribe_audio_in f path align_timestamps diarize self w
  = (load_model_in f ;;
     try_except (transcribe_body_in f path align_timestamps diarize)
                (transcribe_handler_in f)) self w.
Proof.
  intros Hexists.
  destruct f;
    cbv [transcribe_audio_in TranscriberPy.transcribe_audio
         GuiPy.transcribe_audio];
    rewrite Hexists; reflexivity.
Qed.

(** *** Symbolic execution of the small operations *)

(** C7.  A path that does not exist: [transcribe_audio] prints one line and
    returns [None]; the transcriber, the world and every cached model are as
    they were, and no external call was made. *)
Theorem transcribe_audio_missing_file :
  forall (f : SourceFile) (path : string) (align_timestamps diarize : bool)
         (self : Transcriber) (w : World),
    os_path_exists path w = false ->
    transcribe_audio_in f path align_timestamps diarize self w
    = mkOut (Ok None) self w
            [EvPrint ("Error: Audio file not found at " ++ path)].
Proof.
  intros f path a d self w Hmissing.
  destruct f; py_unfold; rewrite Hmissing; reflexivity.
Qed.

(** C9.  [set_model] and [MainWindow.change_model] write [model_name] and
    clear [model]; the five other attributes keep their values, the world is
    untouched and nothing is traced. *)
Theorem set_model_frame :
  forall (f : SourceFile) (name : string) (self : Transcriber) (w : World),
    let self' :=
      mkTranscriber (device self) (compute_type self) None
                    (align_model self) (align_metadata self)
                    (diarize_model self) name in
    set_model_in f name self w = mkOut (Ok tt) self' w []
    /\ GuiPy.change_model name self w = mkOut (Ok tt) self' w [].
Proof.
  intros f name self w; destruct f; split; reflexivity.
Qed.

(** *** When the loaders reload *)

(** The events of a concrete trace that are a given load call. *)
Ltac find_load Hin :=
  simpl in Hin;
  repeat (destruct Hin as [Hin | Hin]; [try discriminate Hin |]);
  try contradiction.

Lemma load_model_calls_iff_stale (f : SourceFile) (self : Transcriber)
    (w : World) :
  loads_acoustic (events (load_model_in f self w)) = true
  <-> acoustic_model_stale self w.
Proof.
  unfold acoustic_model_stale, loads_acoustic.
  destruct self as [dev ct mo am md dm name].
  destruct f; py_run; cbn [existsb is_acoustic_load orb];
    (split;
     [ intros Hcalled; try discriminate Hcalled;
       first [ left; reflexivity
             | right; do 3 eexists; repeat split; try eassumption;
               apply string_eqb_negb_true; assumption ]
     | intros [Hnone | (m' & n' & w' & Hm & Hget & Hne)];
       try reflexivity; try discriminate Hnone;
       inv Hm; rewrite Hget in *;
       match goal with E : (_, _) = (_, _) |- _ => inv E end;
       apply string_eqb_negb_true in Hne; congruence ]).
Qed.

Lemma load_model_idle_unchanged (f : SourceFile) (self : Transcriber)
    (w : World) :
  loads_acoustic (events (load_model_in f self w)) = false ->
  self_of (load_model_in f self w) = self.
Proof.
  unfold loads_acoustic.
  destruct self as [dev ct mo am md dm name].
  destruct f; py_run; cbn [existsb is_acoustic_load orb];
    intros Hidle; first [reflexivity | discriminate Hidle].
Qed.

Lemma load_model_call_effect (f : SourceFile) (self : Transcriber) (w : World)
    (name dev ctype : string) (r : res Model) :
  let o := load_model_in f self w in
  In (EvLoadModel name dev ctype r) (events o) ->
  name = model_name self /\ dev = device self /\ ctype = compute_type self
  /\ match r with
     | Ok m =>
         outcome o = Ok tt
         /\ self_of o =
            mkTranscriber (device self) (compute_type self) (Some m)
                          (align_model self) (align_metadata self)
                          (diarize_model self) (model_name self)
     | Raise e => outcome o = Raise e /\ self_of o = self
     end.
Proof.
  intros o; subst o.
  destruct self as [dev0 ct0 mo am md dm name0].
  destruct f; py_run; intros Hin; find_load Hin; inv Hin; auto.
Qed.

(** The call that is traced is the call of the library, made with the
    transcriber's name, device and compute type; its result decides the
    outcome. *)
Lemma load_model_calls_the_library (f : SourceFile) (self : Transcriber)
    (w : World) (r : res Model) (w' : World) :
  let o := load_model_in f self w in
  acoustic_model_stale self w ->
  whisperx_load_model (model_name self) (device self) (compute_type self)
                      (world_at_load self w) = (r, w') ->
  In (EvLoadModel (model_name self) (device self) (compute_type self) r)
     (events o)
  /\ world_of o = w'
  /\ outcome o = match r with Ok _ => Ok tt | Raise e => Raise e end
  /\ self_of o = match r with
                 | Ok m =>
                     mkTranscriber (device self) (compute_type self) (Some m)
                                   (align_model self) (align_metadata self)
                                   (diarize_model self) (model_name self)
                 | Raise _ => self
                 end.
Proof.
  intros o; subst o.
  unfold acoustic_model_stale, world_at_load.
  destruct self as [dev ct mo am md dm name]; py_simpl.
  intros Hstale Hcall.
  destruct mo as [m0 |].
  - destruct Hstale as [Hnone | (m' & n' & w1 & Hm & Hget & Hne)];
      [discriminate Hnone |].
    inv Hm; rewrite Hget in Hcall; cbn [snd] in Hcall.
    apply string_eqb_negb_true in Hne.
    destruct f; py_unfold; py_simpl; rewrite Hget; py_simpl; rewrite Hne;
      rewrite Hcall; destruct r; py_simpl;
      (split; [simpl; tauto | repeat split]).
  - destruct f; py_unfold; py_simpl; rewrite Hcall; destruct r; py_simpl;
      (split; [simpl; tauto | repeat split]).
Qed.

(** After [set_model] the next [load_model] loads the new name. *)
Lemma set_model_then_load_model (f : SourceFile) (name : string)
    (self : Transcriber) (w0 w : World) (r : res Model) (w' : World) :
  let self1 := self_of (set_model_in f name self w0) in
  let o := load_model_in f self1 w in
  whisperx_load_model name (device self) (compute_type self) w = (r, w') ->
  model self1 = None /\ model_name self1 = name
  /\ In (EvLoadModel name (device self) (compute_type self) r) (events o)
  /\ world_of o = w'
  /\ model (self_of o) = match r with Ok m => Some m | Raise _ => None end.
Proof.
  intros self1 o; subst self1 o.
  destruct self as [dev ct mo am md dm name0]; py_simpl; intros Hcall.
  destruct f; py_unfold; py_simpl; py_simpl; rewrite Hcall; destruct r;
    py_simpl; (split; [reflexivity | split; [reflexivity |]]);
    (split; [simpl; tauto | repeat split]).
Qed.
(** C3.  [load_model] calls [whisperx.load_model] exactly when no model is
    cached or the cached model's [model_name] reads as a name other than the
    transcriber's.  When it does not call it, the transcriber, and with it
    the cached model, is unchanged.  When it does, it calls the library once,
    with the transcriber's [model_name], [device] and [compute_type]: if the
    library returns a model, that model replaces the cached one and nothing
    else changes; if it raises, the exception leaves [load_model] and the
    transcriber is unchanged.  [set_model] clears the cache, so that the
    [load_model] that follows it loads the new name whatever was cached. *)
Theorem load_model_reload_iff :
  forall (f : SourceFile) (self : Transcriber) (w : World),
    let o := load_model_in f self w in
    (loads_acoustic (events o) = true <-> acoustic_model_stale self w)
    /\ (loads_acoustic (events o) = false -> self_of o = self)
    /\ (forall name dev ctype r,
          In (EvLoadModel name dev ctype r) (events o) ->
          name = model_name self /\ dev = device self
          /\ ctype = compute_type self
          /\ match r with
             | Ok m =>
                 outcome o = Ok tt
                 /\ self_of o =
                    mkTranscriber (device self) (compute_type self) (Some m)
                                  (align_model self) (align_metadata self)
                                  (diarize_model self) (model_name self)
             | Raise e => outcome o = Raise e /\ self_of o = self
             end)
    /\ (acoustic_model_stale self w ->
        forall r w',
          whisperx_load_model (model_name self) (device self)
                              (compute_type self) (world_at_load self w)
          = (r, w') ->
          In (EvLoadModel (model_name self) (device self) (compute_type self)
                          r)
             (events o)
          /\ world_of o = w'
          /\ outcome o = match r with Ok _ => Ok tt | Raise e => Raise e end
          /\ self_of o
             = match r with
               | Ok m =>
                   mkTranscriber (device self) (compute_type self) (Some m)
                                 (align_model self) (align_metadata self)
                                 (diarize_model self) (model_name self)
               | Raise _ => self
               end)
    /\ (forall name w0 w1 r w',
          whisperx_load_model name (device self) (compute_type self) w1
          = (r, w') ->
          let self1 := self_of (set_model_in f name self w0) in
          let o1 := load_model_in f self1 w1 in
          model self1 = None /\ model_name self1 = name
          /\ In (EvLoadModel name (device self) (compute_type self) r)
                (events o1)
          /\ world_of o1 = w'
          /\ model (self_of o1)
             = match r with Ok m => Some m | Raise _ => None end).
Proof.
  intros f self w o; subst o; split; [| split; [| split; [| split]]].
  - apply load_model_calls_iff_stale.
  - apply load_model_idle_unchanged.
  - intros name dev ctype r; apply load_model_call_effect.
  - intros Hstale r w' Hcall.
    exact (load_model_calls_the_library f self w r w' Hstale Hcall).
  - intros name w0 w1 r w' Hcall.
    exact (set_model_then_load_model f name self w0 w1 r w' Hcall).
Qed.






(** *** A state invariant together with a test every traced event passes *)

Section Respects.
Variable P : Transcriber -> Prop.
Variable Q : Event -> bool.

Lemma respects_ret {A} (a : A) : respects P Q (ret a).
Proof. intros self w HP; split; [exact HP | reflexivity]. Qed.

Lemma respects_raise {A} (e : exn) : respects P Q (@raise _ A e).
Proof. intros self w HP; split; [exact HP | reflexivity]. Qed.

Lemma respects_log (e : Event) : Q e = true -> respects P Q (log e).
Proof. intros HQ self w HP; split; [exact HP | simpl; now rewrite HQ]. Qed.

Lemma respects_print (s : string) :
  Q (EvPrint s) = true -> respects P Q (print s).
Proof. apply respects_log. Qed.

Lemma respects_ext {X} (ev : res X -> Event) (call : World -> res X * World) :
  (forall r, Q (ev r) = true) -> respects P Q (ext ev call).
Proof.
  intros HQ self w HP; unfold ext.
  destruct (call w) as [r w']; split; [exact HP | simpl; now rewrite HQ].
Qed.

Lemma respects_put (self' : Transcriber) :
  P self' -> respects P Q (put_self self').
Proof. intros HP' self w _; split; [exact HP' | reflexivity]. Qed.

Lemma respects_bind {A B} (m : M A) (k : A -> M B) :
  respects P Q m -> (forall a, respects P Q (k a)) ->
  respects P Q (bind m k).
Proof.
  intros Hm Hk self w HP; unfold bind.
  destruct (Hm self w HP) as [HP1 HQ1].
  destruct (m self w) as [[a | e] self1 w1 evs1]; simpl in *.
  - destruct (Hk a self1 w1 HP1) as [HP2 HQ2].
    destruct (k a self1 w1) as [r self2 w2 evs2]; simpl in *.
    split; [exact HP2 | now rewrite forallb_app, HQ1, HQ2].
  - split; assumption.
Qed.

(** What [get_self] hands to the rest of the method satisfies [P]. *)
Lemma respects_get_bind {B} (k : Transcriber -> M B) :
  (forall self0, P self0 -> respects P Q (k self0)) ->
  respects P Q (bind get_self k).
Proof.
  intros Hk self w HP; unfold bind, get_self.
  destruct (Hk self HP self w HP) as [HP2 HQ2].
  destruct (k self self w) as [r self2 w2 evs2]; simpl in *.
  split; assumption.
Qed.

Lemma respects_try {A} (body : M A) (handler : exn -> M A) :
  respects P Q body -> (forall e, respects P Q (handler e)) ->
  respects P Q (try_except body handler).
Proof.
  intros Hb Hh self w HP; unfold try_except.
  destruct (Hb self w HP) as [HP1 HQ1].
  destruct (body self w) as [[a | e] self1 w1 evs1]; simpl in *.
  - split; assumption.
  - destruct (Hh e self1 w1 HP1) as [HP2 HQ2].
    destruct (handler e self1 w1) as [r self2 w2 evs2]; simpl in *.
    split; [exact HP2 | now rewrite forallb_app, HQ1, HQ2].
Qed.

End Respects.

(** Walk down a method, one statement at a time. *)
Ltac respects_step :=
  match goal with
  | |- respects _ _ (bind get_self _) =>
      apply respects_get_bind; intros ? ?
  | |- respects _ _ (bind _ _) => apply respects_bind; [| intro]
  | |- respects _ _ (try_except _ _) => apply respects_try; [| intro]
  | |- respects _ _ (ret _) => apply respects_ret
  | |- respects _ _ (raise _) => apply respects_raise
  | |- respects _ _ (print _) => apply respects_print; reflexivity
  | |- respects _ _ (log _) => apply respects_log; reflexivity
  | |- respects _ _ (ext _ _) => apply respects_ext; intro; reflexivity
  | |- respects _ _ (put_self _) => apply respects_put; simpl; try assumption
  | |- respects _ _ (match ?x with _ => _ end) =>
      destruct x eqn:?; try congruence
  end.

Ltac unfold_methods :=
  cbv [load_model_in load_align_model_in load_diarize_model_in
       transcribe_body_in transcribe_handler_in set_model_in
       TranscriberPy.transcribe_body TranscriberPy.transcribe_handler
       TranscriberPy.load_model TranscriberPy.load_align_model
       TranscriberPy.load_diarize_model TranscriberPy.set_model
       GuiPy.transcribe_body GuiPy.transcribe_handler GuiPy.load_model
       GuiPy.load_align_model GuiPy.load_diarize_model GuiPy.set_model
       GuiPy.change_model
       set_self_model set_self_align_model set_self_align_metadata
       set_self_diarize_model set_self_model_name].

Ltac respects_auto := unfold_methods; repeat respects_step.

(** From the two blocks of [transcribe_audio] to the method. *)
Lemma respects_transcribe_audio (P : Transcriber -> Prop) (Q : Event -> bool)
    (f : SourceFile) (path : string) (align_timestamps diarize : bool) :
  Q (EvPrint ("Error: Audio file not found at " ++ path)) = true ->
  respects P Q (load_model_in f) ->
  respects P Q (try_except
                  (transcribe_body_in f path align_timestamps diarize)
                  (transcribe_handler_in f)) ->
  respects P Q (transcribe_audio_in f path align_timestamps diarize).
Proof.
  intros Hprint Hload Htry self w HP.
  apply transcribe_audio_cases.
  - exact (respects_bind P Q _ _ (respects_print P Q _ Hprint)
                         (fun _ => respects_ret P Q None) self w HP).
  - exact (respects_bind P Q _ _ Hload (fun _ => Htry) self w HP).
Qed.

(** With a diarization pipeline cached, no method replaces it or builds
    another one. *)
Lemma diarize_cached_load_model (f : SourceFile) (d : DiarizeModel) :
  respects (diarize_cached d) not_diarization_load (load_model_in f).
Proof. unfold diarize_cached; destruct f; respects_auto. Qed.

Lemma diarize_cached_load_align_model (f : SourceFile) (d : DiarizeModel)
    (language_code : string) :
  respects (diarize_cached d) not_diarization_load
           (load_align_model_in f language_code).
Proof. unfold diarize_cached; destruct f; respects_auto. Qed.

Lemma diarize_cached_load_diarize_model (f : SourceFile) (d : DiarizeModel) :
  respects (diarize_cached d) not_diarization_load (load_diarize_model_in f).
Proof. unfold diarize_cached; destruct f; respects_auto. Qed.

Lemma diarize_cached_set_model (f : SourceFile) (d : DiarizeModel)
    (name : string) :
  respects (diarize_cached d) not_diarization_load (set_model_in f name)
  /\ respects (diarize_cached d) not_diarization_load
              (GuiPy.change_model name).
Proof. unfold diarize_cached; destruct f; split; respects_auto. Qed.

Lemma diarize_cached_transcribe_audio (f : SourceFile) (d : DiarizeModel)
    (path : string) (align_timestamps diarize : bool) :
  respects (diarize_cached d) not_diarization_load
           (transcribe_audio_in f path align_timestamps diarize).
Proof.
  apply respects_transcribe_audio;
    [reflexivity | apply diarize_cached_load_model |].
  unfold diarize_cached; destruct f; respects_auto.
Qed.

Lemma forallb_not_diarization_load (evs : list Event) :
  forallb not_diarization_load evs = true -> loads_diarization evs = false.
Proof.
  unfold loads_diarization, not_diarization_load.
  induction evs as [| e evs IH]; simpl; [reflexivity |].
  destruct (is_diarization_load e); simpl; [discriminate | exact IH].
Qed.

(** C6.  Starting from a transcriber whose [diarize_model] is [d], each of
    [load_diarize_model], [transcribe_audio], [load_model],
    [load_align_model], [set_model] and [change_model] ends with
    [diarize_model] still [d], and none of them makes a call that builds a
    diarization pipeline. *)
Theorem diarize_model_never_replaced :
  forall (f : SourceFile) (d : DiarizeModel) (self : Transcriber) (w : World),
    diarize_model self = Some d ->
    keeps_diarize_model d (load_diarize_model_in f self w)
    /\ (forall path align_timestamps diarize,
          keeps_diarize_model d
            (transcribe_audio_in f path align_timestamps diarize self w))
    /\ keeps_diarize_model d (load_model_in f self w)
    /\ (forall language_code,
          keeps_diarize_model d (load_align_model_in f language_code self w))
    /\ (forall name, keeps_diarize_model d (set_model_in f name self w))
    /\ (forall name, keeps_diarize_model d (GuiPy.change_model name self w)).
Proof.
  intros f d self w Hd.
  assert (Hkeeps : forall A (m : M A),
             respects (diarize_cached d) not_diarization_load m ->
             keeps_diarize_model d (m self w)).
  { intros A m Hm; destruct (Hm self w Hd) as [Hstate Htrace].
    split; [exact Hstate | apply forallb_not_diarization_load, Htrace]. }
  repeat match goal with |- _ /\ _ => split end; intros; apply Hkeeps.
  - apply diarize_cached_load_diarize_model.
  - apply diarize_cached_transcribe_audio.
  - apply diarize_cached_load_model.
  - apply diarize_cached_load_align_model.
  - apply diarize_cached_set_model.
  - apply (diarize_cached_set_model f).
Qed.

(** *** The worker thread *)

Lemma no_signal_transcribe_audio (f : SourceFile) (path : string)
    (align_timestamps diarize : bool) :
  respects (fun _ => True) not_signal
           (transcribe_audio_in f path align_timestamps diarize).
Proof.
  apply respects_transcribe_audio; [reflexivity | |];
    destruct f; respects_auto; exact I.
Qed.

Lemma forallb_not_signal (evs : list Event) :
  forallb not_signal evs = true -> signals evs = [].
Proof.
  unfold signals, not_signal.
  induction evs as [| e evs IH]; simpl; [reflexivity |].
  destruct (is_signal e); simpl; [discriminate | exact IH].
Qed.

(** C4.  [TranscriptionThread.run] returns normally and adds exactly one
    signal to what [transcribe_audio] traced: [transcription_complete] with
    the result when the result is truthy, [transcription_error] with the
    fixed message when it is [None] or falsy, [transcription_error] with
    [str(e)] when [transcribe_audio] raised [e]. *)
Theorem run_emits_exactly_one_signal :
  forall (t : GuiPy.TranscriptionThread) (self : Transcriber) (w : World),
    let r := GuiPy.transcribe_audio (GuiPy.audio_file t)
               (GuiPy.align_timestamps t) (GuiPy.diarize t) self w in
    let o := GuiPy.run t self w in
    outcome o = Ok tt
    /\ events o = (events r ++ [completion_signal (outcome r)])%list
    /\ signals (events o) = [completion_signal (outcome r)]
    /\ self_of o = self_of r
    /\ world_of o = world_of r.
Proof.
  intros t self w r o.
  assert (Hquiet : signals (events r) = []).
  { apply forallb_not_signal.
    apply (no_signal_transcribe_audio gui_py _ _ _ self w I). }
  assert (Hone : forall s, is_signal s = true ->
                           signals (events r ++ [s]) = [s]).
  { intros s Hs; unfold signals in *.
    rewrite filter_app, Hquiet; simpl; now rewrite Hs. }
  subst o; unfold GuiPy.run, try_except, bind, log.
  fold r; clearbody r.
  destruct r as [[[x |] | e] self1 w1 evs1]; simpl in *;
    try destruct (result_truthy x); simpl;
    repeat split; try reflexivity;
    try (rewrite app_nil_r; reflexivity);
    try (apply Hone; reflexivity);
    rewrite app_nil_r; apply Hone; reflexivity.
Qed.

(** *** Exceptions in [transcribe_audio] *)

(** X17.  The three ways out of [transcribe_audio], in either file.  With
    the file missing it prints one line and returns [None].  Otherwise
    [self.load_model()] runs before the [try] block: what it raises leaves
    [transcribe_audio] as it is, with nothing more printed.  Whatever the
    [try] block raises is caught: the message and the traceback are printed
    and [None] is returned, from the state and the world the block had
    reached; what the block returns is returned. *)
Theorem transcribe_audio_catches_inside_try :
  forall (f : SourceFile) (path : string) (align_timestamps diarize : bool)
         (self : Transcriber) (w : World),
    let o := transcribe_audio_in f path align_timestamps diarize self w in
    if os_path_exists path w then
      let o1 := load_model_in f self w in
      match outcome o1 with
      | Raise e => o = mkOut (Raise e) (self_of o1) (world_of o1) (events o1)
      | Ok _ =>
          let o2 := transcribe_body_in f path align_timestamps diarize
                      (self_of o1) (world_of o1) in
          match outcome o2 with
          | Ok r =>
              o = mkOut (Ok r) (self_of o2) (world_of o2)
                        (events o1 ++ events o2)
          | Raise e =>
              o = mkOut (Ok None) (self_of o2) (world_of o2)
                        (events o1 ++ events o2 ++
                         [EvPrint ("An error occurred during transcription: "
                                   ++ e);
                          EvTraceback e])
          end
      end
    else
      o = mkOut (Ok None) self w
                [EvPrint ("Error: Audio file not found at " ++ path)].
Proof.
  intros f path a d self w o; subst o.
  destruct f;
    cbv [transcribe_audio_in load_model_in transcribe_body_in
         TranscriberPy.transcribe_audio GuiPy.transcribe_audio
         TranscriberPy.transcribe_handler GuiPy.transcribe_handler];
    destruct (os_path_exists path w); cbn [negb]; try reflexivity;
    cbv [bind try_except print log ret].
  - destruct (TranscriberPy.load_model self w) as [[[] | e1] self1 w1 evs1];
      cbn [outcome self_of world_of events]; [| reflexivity].
    destruct (TranscriberPy.transcribe_body path a d self1 w1)
      as [[r | e2] self2 w2 evs2];
      cbn [outcome self_of world_of events app]; reflexivity.
  - destruct (GuiPy.load_model self w) as [[[] | e1] self1 w1 evs1];
      cbn [outcome self_of world_of events]; [| reflexivity].
    destruct (GuiPy.transcribe_body path a d self1 w1)
      as [[r | e2] self2 w2 evs2];
      cbn [outcome self_of world_of events app]; reflexivity.
Qed.

(** *** Loads and caches, one kind of model at a time *)

Section Caching.
Variable X : Type.
Variable pick : Event -> list X.
Variable field : Transcriber -> option X.

Lemma frames_ret {A} (a : A) : frames pick field (ret a).
Proof. intros self w; split; reflexivity. Qed.

Lemma frames_raise {A} (e : exn) : frames pick field (@raise _ A e).
Proof. intros self w; split; reflexivity. Qed.

Lemma frames_get : frames pick field get_self.
Proof. intros self w; split; reflexivity. Qed.

Lemma frames_log (e : Event) : pick e = [] -> frames pick field (log e).
Proof.
  intros He self w; split; [reflexivity | simpl; now rewrite He].
Qed.

Lemma frames_ext {Y} (ev : res Y -> Event) (call : World -> res Y * World) :
  (forall r, pick (ev r) = []) -> frames pick field (ext ev call).
Proof.
  intros He self w; unfold ext.
  destruct (call w) as [r w']; split; [reflexivity | simpl; now rewrite He].
Qed.

Lemma frames_bind {A B} (m : M A) (k : A -> M B) :
  frames pick field m -> (forall a, frames pick field (k a)) ->
  frames pick field (bind m k).
Proof.
  intros Hm Hk self w; unfold bind.
  destruct (Hm self w) as [Hf1 Hp1].
  destruct (m self w) as [[a | e] self1 w1 evs1]; simpl in *.
  - destruct (Hk a self1 w1) as [Hf2 Hp2].
    destruct (k a self1 w1) as [r self2 w2 evs2]; simpl in *.
    split; [congruence | now rewrite flat_map_app, Hp1, Hp2].
  - split; assumption.
Qed.

Lemma frames_try {A} (body : M A) (handler : exn -> M A) :
  frames pick field body -> (forall e, frames pick field (handler e)) ->
  frames pick field (try_except body handler).
Proof.
  intros Hb Hh self w; unfold try_except.
  destruct (Hb self w) as [Hf1 Hp1].
  destruct (body self w) as [[a | e] self1 w1 evs1]; simpl in *.
  - split; assumption.
  - destruct (Hh e self1 w1) as [Hf2 Hp2].
    destruct (handler e self1 w1) as [r self2 w2 evs2]; simpl in *.
    split; [congruence | now rewrite flat_map_app, Hp1, Hp2].
Qed.

Lemma caches_of_frames {A} (m : M A) :
  frames pick field m -> caches pick field m.
Proof.
  intros Hm self w x Hin; destruct (Hm self w) as [_ Hp].
  rewrite Hp in Hin; contradiction.
Qed.

(** The load happens in [m]; what follows leaves the cache alone. *)
Lemma caches_bind_l {A B} (m : M A) (k : A -> M B) :
  caches pick field m -> (forall a, frames pick field (k a)) ->
  caches pick field (bind m k).
Proof.
  intros Hm Hk self w x; unfold bind.
  specialize (Hm self w x).
  destruct (m self w) as [[a | e] self1 w1 evs1]; simpl in *.
  - destruct (Hk a self1 w1) as [Hf2 Hp2].
    destruct (k a self1 w1) as [r self2 w2 evs2]; simpl in *.
    rewrite flat_map_app, Hp2, app_nil_r, Hf2; exact Hm.
  - exact Hm.
Qed.

(** Nothing is loaded in [m]; the load, if any, happens after it. *)
Lemma caches_bind_r {A B} (m : M A) (k : A -> M B) :
  frames pick field m -> (forall a, caches pick field (k a)) ->
  caches pick field (bind m k).
Proof.
  intros Hm Hk self w x; unfold bind.
  destruct (Hm self w) as [_ Hp1].
  destruct (m self w) as [[a | e] self1 w1 evs1]; simpl in *.
  - specialize (Hk a self1 w1 x).
    destruct (k a self1 w1) as [r self2 w2 evs2]; simpl in *.
    rewrite flat_map_app, Hp1; exact Hk.
  - rewrite Hp1; contradiction.
Qed.

Lemma caches_try_l {A} (body : M A) (handler : exn -> M A) :
  caches pick field body -> (forall e, frames pick field (handler e)) ->
  caches pick field (try_except body handler).
Proof.
  intros Hb Hh self w x; unfold try_except.
  specialize (Hb self w x).
  destruct (body self w) as [[a | e] self1 w1 evs1]; simpl in *.
  - exact Hb.
  - destruct (Hh e self1 w1) as [Hf2 Hp2].
    destruct (handler e self1 w1) as [r self2 w2 evs2]; simpl in *.
    rewrite flat_map_app, Hp2, app_nil_r, Hf2; exact Hb.
Qed.

End Caching.

(** A block that neither loads a model of the kind nor assigns its
    attribute.  The assignments to [self] are whole statements. *)
Ltac frames_step :=
  match goal with
  | |- frames _ _ (bind get_self (fun self => put_self _)) =>
      intros ? ?; split; reflexivity
  | |- frames _ _ (bind _ _) => apply frames_bind; [| intro]
  | |- frames _ _ (try_except _ _) => apply frames_try; [| intro]
  | |- frames _ _ (ret _) => apply frames_ret
  | |- frames _ _ (raise _) => apply frames_raise
  | |- frames _ _ get_self => apply frames_get
  | |- frames _ _ (print _) => apply frames_log; reflexivity
  | |- frames _ _ (log _) => apply frames_log; reflexivity
  | |- frames _ _ (ext _ _) => apply frames_ext; intro; reflexivity
  | |- frames _ _ (match ?x with _ => _ end) => destruct x
  end.

Ltac frames_auto := unfold_methods; repeat frames_step.

Lemma caches_load_model (f : SourceFile) :
  caches pick_acoustic model (load_model_in f).
Proof.
  intros self w x; destruct self as [dev ct mo am md dm name].
  destruct f; py_run; cbn [flat_map pick_acoustic app In];
    intros Hx; repeat (destruct Hx as [Hx | Hx]; subst);
    try contradiction; reflexivity.
Qed.

Lemma caches_load_align_model (f : SourceFile) (language_code : string) :
  caches pick_alignment align_pair (load_align_model_in f language_code).
Proof.
  intros self w x; destruct self as [dev ct mo am md dm name].
  destruct f; py_run; cbn [flat_map pick_alignment app In];
    intros Hx; repeat (destruct Hx as [Hx | Hx]; subst);
    try contradiction;
    match goal with p : (_ * _)%type |- _ => destruct p end; reflexivity.
Qed.

Lemma caches_load_diarize_model (f : SourceFile) :
  caches pick_diarization diarize_model (load_diarize_model_in f).
Proof.
  intros self w x; destruct self as [dev ct mo am md dm name].
  destruct f; py_run; cbn [flat_map pick_diarization app In];
    intros Hx; repeat (destruct Hx as [Hx | Hx]; subst);
    try contradiction; reflexivity.
Qed.

(** At each statement: either nothing of the kind is loaded before it ends,
    or nothing of the kind is touched after it. *)
Ltac caches_step :=
  match goal with
  | |- caches pick_acoustic model TranscriberPy.load_model =>
      exact (caches_load_model transcriber_py)
  | |- caches pick_acoustic model GuiPy.load_model =>
      exact (caches_load_model gui_py)
  | |- caches pick_alignment align_pair (TranscriberPy.load_align_model ?c) =>
      exact (caches_load_align_model transcriber_py c)
  | |- caches pick_alignment align_pair (GuiPy.load_align_model ?c) =>
      exact (caches_load_align_model gui_py c)
  | |- caches pick_diarization diarize_model
              TranscriberPy.load_diarize_model =>
      exact (caches_load_diarize_model transcriber_py)
  | |- caches pick_diarization diarize_model GuiPy.load_diarize_model =>
      exact (caches_load_diarize_model gui_py)
  | |- caches _ _ (bind _ _) =>
      first [ apply caches_bind_r; [solve [frames_auto] | intro]
            | apply caches_bind_l; [| intro; solve [frames_auto]] ]
  | |- caches _ _ (try_except _ _) =>
      apply caches_try_l; [| intro; solve [frames_auto]]
  | |- caches _ _ (match ?x with _ => _ end) => destruct x
  | |- caches _ _ _ => apply caches_of_frames; solve [frames_auto]
  end.

Ltac caches_auto :=
  cbv [transcribe_body_in load_model_in
       TranscriberPy.transcribe_body GuiPy.transcribe_body
       TranscriberPy.transcribe_handler GuiPy.transcribe_handler];
  repeat caches_step.

Lemma caches_transcribe_audio {X} (pick : Event -> list X)
    (field : Transcriber -> option X) (f : SourceFile) (path : string)
    (align_timestamps diarize : bool) :
  pick (EvPrint ("Error: Audio file not found at " ++ path)) = [] ->
  caches pick field
         (load_model_in f ;;
          try_except (transcribe_body_in f path align_timestamps diarize)
                     (transcribe_handler_in f)) ->
  caches pick field (transcribe_audio_in f path align_timestamps diarize).
Proof.
  intros Hprint Hpresent self w.
  apply transcribe_audio_cases; [| apply Hpresent].
  intros x; cbv [bind print log ret]; cbn [events flat_map app].
  rewrite Hprint; contradiction.
Qed.

Lemma caches_acoustic_transcribe_audio (f : SourceFile) (path : string)
    (align_timestamps diarize : bool) :
  caches pick_acoustic model
         (transcribe_audio_in f path align_timestamps diarize).
Proof.
  apply caches_transcribe_audio; [reflexivity |].
  destruct f, align_timestamps, diarize;
    cbv [transcribe_handler_in]; caches_auto.
Qed.

Lemma caches_alignment_transcribe_audio (f : SourceFile) (path : string)
    (align_timestamps diarize : bool) :
  caches pick_alignment align_pair
         (transcribe_audio_in f path align_timestamps diarize).
Proof.
  apply caches_transcribe_audio; [reflexivity |].
  destruct f, align_timestamps, diarize;
    cbv [transcribe_handler_in]; caches_auto.
Qed.

Lemma caches_diarization_transcribe_audio (f : SourceFile) (path : string)
    (align_timestamps diarize : bool) :
  caches pick_diarization diarize_model
         (transcribe_audio_in f path align_timestamps diarize).
Proof.
  apply caches_transcribe_audio; [reflexivity |].
  destruct f, align_timestamps, diarize;
    cbv [transcribe_handler_in]; caches_auto.
Qed.

(** *** What a trace shows, by extraction *)

Lemma In_tracebacks (e : exn) (evs : list Event) :
  In (EvTraceback e) evs -> In e (tracebacks evs).
Proof.
  intros Hin; unfold tracebacks; apply in_flat_map.
  exists (EvTraceback e); split; [exact Hin | left; reflexivity].
Qed.

Lemma In_loaded_acoustic (name dev ctype : string) (m : Model)
    (evs : list Event) :
  In (EvLoadModel name dev ctype (Ok m)) evs -> In m (loaded_acoustic evs).
Proof.
  intros Hin; unfold loaded_acoustic; apply in_flat_map.
  eexists; split; [exact Hin | left; reflexivity].
Qed.

Lemma In_loaded_alignment (code dev : string) (p : AlignModel * Metadata)
    (evs : list Event) :
  In (EvLoadAlignModel code dev (Ok p)) evs -> In p (loaded_alignment evs).
Proof.
  intros Hin; unfold loaded_alignment; apply in_flat_map.
  eexists; split; [exact Hin | left; reflexivity].
Qed.

Lemma In_loaded_diarization (p : Pipeline) (ps : Params) (d : DiarizeModel)
    (evs : list Event) :
  In (EvInstantiate p ps (Ok d)) evs -> In d (loaded_diarization evs).
Proof.
  intros Hin; unfold loaded_diarization; apply in_flat_map.
  eexists; split; [exact Hin | left; reflexivity].
Qed.

Lemma align_pair_Some (self : Transcriber) (am : AlignModel) (md : Metadata) :
  align_pair self = Some (am, md) ->
  align_model self = Some am /\ align_metadata self = Some md.
Proof.
  unfold align_pair.
  destruct (align_model self), (align_metadata self); intros H;
    inversion H; subst; split; reflexivity.
Qed.

(** The traceback is printed by the [except] branch alone. *)
Lemma traceback_free_load_model (f : SourceFile) :
  frames pick_traceback (fun _ => @None exn) (load_model_in f).
Proof. destruct f; frames_auto. Qed.

Lemma traceback_free_transcribe_body (f : SourceFile) (path : string)
    (align_timestamps diarize : bool) :
  frames pick_traceback (fun _ => @None exn)
         (transcribe_body_in f path align_timestamps diarize).
Proof. destruct f, align_timestamps, diarize; frames_auto. Qed.

Lemma traceback_means_caught (f : SourceFile) (path : string)
    (align_timestamps diarize : bool) (self : Transcriber) (w : World)
    (e : exn) :
  In e (tracebacks
          (events (transcribe_audio_in f path align_timestamps diarize
                                       self w))) ->
  outcome (transcribe_audio_in f path align_timestamps diarize self w)
  = Ok None.
Proof.
  apply transcribe_audio_cases; [intros _; reflexivity |].
  unfold tracebacks, bind, try_except.
  destruct (traceback_free_load_model f self w) as [_ H1].
  destruct (load_model_in f self w) as [[[] | e1] self1 w1 evs1];
    cbn [events outcome] in *; [| rewrite H1; contradiction].
  destruct (traceback_free_transcribe_body f path align_timestamps diarize
                                           self1 w1) as [_ H2].
  destruct (transcribe_body_in f path align_timestamps diarize self1 w1)
    as [[r | e2] self2 w2 evs2]; cbn [events outcome] in *.
  - rewrite flat_map_app, H1, H2; contradiction.
  - destruct f; intros _; reflexivity.
Qed.

(** C10.  When the [except] branch of [transcribe_audio] ran (a traceback was
    printed), the call returns [None], and each model the trace shows as
    loaded during the call is the one cached on the transcriber when it
    returns. *)
Theorem transcribe_audio_error_keeps_loaded_models :
  forall (f : SourceFile) (path : string) (align_timestamps diarize : bool)
         (self : Transcriber) (w : World) (e : exn),
    let o := transcribe_audio_in f path align_timestamps diarize self w in
    In (EvTraceback e) (events o) ->
    outcome o = Ok None /\ loaded_models_cached (events o) (self_of o).
Proof.
  intros f path a d self w e o Hcaught; subst o; split.
  - eapply traceback_means_caught, In_tracebacks, Hcaught.
  - unfold loaded_models_cached; split; [| split].
    + intros name dev ctype m Hin.
      eapply caches_acoustic_transcribe_audio, In_loaded_acoustic, Hin.
    + intros code dev am md Hin.
      eapply align_pair_Some, caches_alignment_transcribe_audio,
        In_loaded_alignment, Hin.
    + intros p ps dm Hin.
      eapply caches_diarization_transcribe_audio, In_loaded_diarization, Hin.
Qed.

(** *** The order of the stages *)

(** The three loaders make no stage call. *)
Lemma stage_free_load_model (f : SourceFile) :
  frames pick_stage (fun _ => @None Event) (load_model_in f).
Proof. destruct f; frames_auto. Qed.

Lemma stage_free_load_align_model (f : SourceFile) (language_code : string) :
  frames pick_stage (fun _ => @None Event)
         (load_align_model_in f language_code).
Proof. destruct f; frames_auto. Qed.

Lemma stage_free_load_diarize_model (f : SourceFile) :
  frames pick_stage (fun _ => @None Event) (load_diarize_model_in f).
Proof. destruct f; frames_auto. Qed.

Lemma stage_kinds_of_stages (evs : list Event) :
  stages evs = [] -> stage_kinds evs = [].
Proof.
  unfold stages, stage_kinds, pick_stage, pick_kind.
  induction evs as [| e evs IH]; simpl; [reflexivity |].
  destruct (stage_kind e); simpl; [discriminate | exact IH].
Qed.

(** Run [transcribe_audio] with the loaders as single steps, of which only
    the absence of stage calls is kept. *)
Ltac py_loader fact call :=
  lazymatch call with
  | context [match _ with _ => _ end] => fail
  | _ => idtac
  end;
  let H := fresh "Hquiet" in
  pose proof fact as H;
  cbv [load_model_in load_align_model_in load_diarize_model_in] in H;
  destruct H as [_ H];
  destruct call as [[[] | ?] ? ? ?]; cbn [events] in H;
  let K := fresh "Hkinds" in
  pose proof (stage_kinds_of_stages _ H) as K; unfold stage_kinds in K;
  py_simpl.

Ltac py_stage_step :=
  match goal with
  | |- context [TranscriberPy.load_model ?s ?w] =>
      py_loader (stage_free_load_model transcriber_py s w)
                (TranscriberPy.load_model s w)
  | |- context [GuiPy.load_model ?s ?w] =>
      py_loader (stage_free_load_model gui_py s w) (GuiPy.load_model s w)
  | |- context [TranscriberPy.load_align_model ?c ?s ?w] =>
      py_loader (stage_free_load_align_model transcriber_py c s w)
                (TranscriberPy.load_align_model c s w)
  | |- context [GuiPy.load_align_model ?c ?s ?w] =>
      py_loader (stage_free_load_align_model gui_py c s w)
                (GuiPy.load_align_model c s w)
  | |- context [TranscriberPy.load_diarize_model ?s ?w] =>
      py_loader (stage_free_load_diarize_model transcriber_py s w)
                (TranscriberPy.load_diarize_model s w)
  | |- context [GuiPy.load_diarize_model ?s ?w] =>
      py_loader (stage_free_load_diarize_model gui_py s w)
                (GuiPy.load_diarize_model s w)
  | |- context [match ?x with _ => _ end] =>
      lazymatch x with
      | context [match _ with _ => _ end] => fail
      | _ => destruct x
      end; py_simpl
  end.

Ltac py_stage_run :=
  cbv [load_model_in transcribe_body_in transcribe_handler_in
       TranscriberPy.transcribe_body GuiPy.transcribe_body
       TranscriberPy.transcribe_handler GuiPy.transcribe_handler
       bind ret raise try_except ext get_self log print];
  py_simpl; repeat py_stage_step.

(** Read the stage calls off a trace whose loader parts are known to have
    none. *)
Ltac trace_simpl :=
  unfold stages, stage_kinds in *;
  repeat first
    [ progress cbn [flat_map app pick_stage pick_kind stage_kind]
    | rewrite flat_map_app
    | match goal with
      | H : flat_map _ _ = [] |- _ => rewrite H
      end ].

Ltac trace_In :=
  match goal with
  | |- In _ (_ ++ _) =>
      apply in_or_app; first [ left; solve [trace_In] | right; trace_In ]
  | |- In _ (_ :: _) => first [ left; reflexivity | right; trace_In ]
  end.

Lemma stages_of_present_branch (f : SourceFile) (path : string)
    (align_timestamps diarize : bool) (self : Transcriber) (w : World) :
  let o := (load_model_in f ;;
            try_except (transcribe_body_in f path align_timestamps diarize)
                       (transcribe_handler_in f)) self w in
  is_prefix (stage_kinds (events o)) (planned align_timestamps diarize)
  /\ (forall r,
        outcome o = Ok (Some r) ->
        stage_kinds (events o) = planned align_timestamps diarize
        /\ ran_pipeline f path align_timestamps diarize (events o) r)
  /\ (outcome o = Ok None -> exists e, In (EvTraceback e) (events o)).
Proof.
  intros o; subst o.
  destruct f, align_timestamps, diarize; py_stage_run;
    (split;
     [ trace_simpl; eexists; reflexivity
     | split;
       [ intros r E;
         first
           [ discriminate E
           | inv E; split; [trace_simpl; reflexivity |];
             unfold ran_pipeline; cbn [diarize_input];
             do 3 eexists; split; [trace_In |];
             repeat match goal with
                    | |- exists _, _ => eexists
                    | |- _ /\ _ => split
                    end;
             first [ trace_simpl; reflexivity | trace_In ] ]
       | intros E; first [ discriminate E | eexists; trace_In ] ] ]).
Qed.

(** X16.  For a path that exists, the stage calls [transcribe_audio] makes
    are, in every run, an initial part of: transcription, then alignment if
    [align_timestamps], then the diarization call and the speaker assignment
    if [diarize]: a run may stop early, it never reorders, repeats or adds a
    stage.  In a run that returns a result they are all of it:
    alignment was given the segments of the transcription's result, the
    speaker assignment was given the result current at that point, and the
    value returned is the result of the last stage call.  The only other
    way to return is [None] from the [except] branch. *)
Theorem transcribe_audio_stage_order :
  forall (f : SourceFile) (path : string) (align_timestamps diarize : bool)
         (self : Transcriber) (w : World),
    os_path_exists path w = true ->
    let o := transcribe_audio_in f path align_timestamps diarize self w in
    is_prefix (stage_kinds (events o)) (planned align_timestamps diarize)
    /\ (forall r,
          outcome o = Ok (Some r) ->
          stage_kinds (events o) = planned align_timestamps diarize
          /\ ran_pipeline f path align_timestamps diarize (events o) r)
    /\ (outcome o = Ok None -> exists e, In (EvTraceback e) (events o)).
Proof.
  intros f path a d self w Hexists o; subst o.
  rewrite (transcribe_audio_present f path a d self w Hexists).
  apply stages_of_present_branch.
Qed.


(** *** The loaders as single steps *)

(** What the rest of [transcribe_audio] needs to know of a loader call: the
    one attribute it may have changed, that it made no stage call, and that
    it has cached a model if it returned. *)
Lemma load_model_summary (f : SourceFile) (self : Transcriber) (w : World) :
  let o := load_model_in f self w in
  exists mo,
    self_of o = mkTranscriber (device self) (compute_type self) mo
                              (align_model self) (align_metadata self)
                              (diarize_model self) (model_name self)
    /\ stages (events o) = []
    /\ match outcome o with
       | Ok _ => exists m, mo = Some m
       | Raise _ => mo = model self
       end.
Proof.
  intros o; subst o; destruct self as [dev ct mo am md dm name].
  destruct f; py_run; eexists; repeat split; eauto.
Qed.

Lemma load_align_model_summary (f : SourceFile) (language_code : string)
    (self : Transcriber) (w : World) :
  let o := load_align_model_in f language_code self w in
  exists am md,
    self_of o = mkTranscriber (device self) (compute_type self) (model self)
                              am md
                              (diarize_model self) (model_name self)
    /\ stages (events o) = []
    /\ match outcome o with
       | Ok _ => exists x y, am = Some x /\ md = Some y
       | Raise _ => am = align_model self /\ md = align_metadata self
       end.
Proof.
  intros o; subst o; destruct self as [dev ct mo am md dm name].
  destruct f; py_run; do 2 eexists; repeat split; eauto.
Qed.

Lemma load_diarize_model_summary (f : SourceFile) (self : Transcriber)
    (w : World) :
  let o := load_diarize_model_in f self w in
  exists dm,
    self_of o = mkTranscriber (device self) (compute_type self) (model self)
                              (align_model self) (align_metadata self)
                              dm (model_name self)
    /\ stages (events o) = []
    /\ match outcome o with
       | Ok _ =>
           exists d, dm = Some d
                     /\ (f = transcriber_py -> diarize_model self = Some d)
       | Raise _ => dm = diarize_model self
       end.
Proof.
  intros o; subst o; destruct self as [dev ct mo am md dm name].
  destruct f; py_run; eexists; (split; [reflexivity | split; [reflexivity |]]);
    first [ reflexivity
          | eexists; split; [reflexivity |]; intros Hf;
            first [discriminate Hf | reflexivity] ].
Qed.

(** X1.  A loader is all or nothing.  [load_model], [load_align_model] and
    [load_diarize_model], in either file, change no attribute of the
    transcriber but their own ([model]; [align_model] and [align_metadata];
    [diarize_model]).  When the loader returns, what it is to load is cached
    (not [None]); when it raises, the transcriber is as it was before the
    call. *)
Theorem loaders_all_or_nothing :
  forall (f : SourceFile) (language_code : string) (self : Transcriber)
         (w : World),
    (only_model_changed self (self_of (load_model_in f self w))
     /\ all_or_nothing (fun s => model s <> None) self (load_model_in f self w))
    /\ (only_alignment_changed
          self (self_of (load_align_model_in f language_code self w))
        /\ all_or_nothing
             (fun s => align_model s <> None /\ align_metadata s <> None)
             self (load_align_model_in f language_code self w))
    /\ (only_diarize_model_changed
          self (self_of (load_diarize_model_in f self w))
        /\ all_or_nothing (fun s => diarize_model s <> None) self
                          (load_diarize_model_in f self w)).
Proof.
  intros f language_code self w.
  destruct (load_model_summary f self w) as (mo & Hs1 & _ & Ho1).
  destruct (load_align_model_summary f language_code self w)
    as (am & md & Hs2 & _ & Ho2).
  destruct (load_diarize_model_summary f self w) as (dm & Hs3 & _ & Ho3).
  unfold only_model_changed, only_alignment_changed,
    only_diarize_model_changed, all_or_nothing.
  destruct self as [dev ct mo0 am0 md0 dm0 name]; cbn in *.
  repeat split.
  - rewrite Hs1; reflexivity.
  - destruct (outcome (load_model_in f _ w)).
    + rewrite Hs1; destruct Ho1 as [m ->]; discriminate.
    + rewrite Hs1, Ho1; reflexivity.
  - rewrite Hs2; reflexivity.
  - destruct (outcome (load_align_model_in f language_code _ w)).
    + rewrite Hs2; destruct Ho2 as (x & y & -> & ->); split; discriminate.
    + rewrite Hs2; destruct Ho2 as [-> ->]; reflexivity.
  - rewrite Hs3; reflexivity.
  - destruct (outcome (load_diarize_model_in f _ w)).
    + rewrite Hs3; destruct Ho3 as (d & -> & _); discriminate.
    + rewrite Hs3, Ho3; reflexivity.
Qed.

(** *** [transcribe_audio] with the loaders summarised *)

Ltac use_summary fact call :=
  lazymatch call with
  | context [match _ with _ => _ end] => fail
  | _ => idtac
  end;
  let H := fresh "Hsum" in
  pose proof fact as H;
  cbv [load_model_in load_align_model_in load_diarize_model_in] in H;
  cbv zeta in H;
  destruct call as [[[] | ?] ? ? ?];
  cbn [outcome self_of events device compute_type model align_model
       align_metadata diarize_model model_name] in H;
  repeat match goal with
         | K : exists _, _ |- _ => destruct K
         | K : _ /\ _ |- _ => destruct K
         | K : ?a = ?a -> _ |- _ => specialize (K eq_refl)
         | K : gui_py = transcriber_py -> _ |- _ => clear K
         end;
  subst; py_simpl.

Ltac py_sum_step :=
  match goal with
  | |- context [TranscriberPy.load_model ?s ?w] =>
      use_summary (load_model_summary transcriber_py s w)
                  (TranscriberPy.load_model s w)
  | |- context [GuiPy.load_model ?s ?w] =>
      use_summary (load_model_summary gui_py s w) (GuiPy.load_model s w)
  | |- context [TranscriberPy.load_align_model ?c ?s ?w] =>
      use_summary (load_align_model_summary transcriber_py c s w)
                  (TranscriberPy.load_align_model c s w)
  | |- context [GuiPy.load_align_model ?c ?s ?w] =>
      use_summary (load_align_model_summary gui_py c s w)
                  (GuiPy.load_align_model c s w)
  | |- context [TranscriberPy.load_diarize_model ?s ?w] =>
      use_summary (load_diarize_model_summary transcriber_py s w)
                  (TranscriberPy.load_diarize_model s w)
  | |- context [GuiPy.load_diarize_model ?s ?w] =>
      use_summary (load_diarize_model_summary gui_py s w)
                  (GuiPy.load_diarize_model s w)
  | |- context [match ?x with _ => _ end] =>
      lazymatch x with
      | context [match _ with _ => _ end] => fail
      | _ => destruct x
      end; py_simpl
  end.

Ltac py_sum_run :=
  cbv [load_model_in transcribe_body_in transcribe_handler_in
       TranscriberPy.transcribe_body GuiPy.transcribe_body
       TranscriberPy.transcribe_handler GuiPy.transcribe_handler
       bind ret raise try_except ext get_self log print];
  py_simpl; repeat py_sum_step.

Lemma In_stages (e : Event) (evs : list Event) :
  pick_stage e = [e] -> In e evs -> In e (stages evs).
Proof.
  intros He Hin; unfold stages; apply in_flat_map.
  exists e; split; [exact Hin | rewrite He; left; reflexivity].
Qed.

(** From a stage call in a trace to its position among the stage calls. *)
Ltac stage_call Hin :=
  apply In_stages in Hin; [| reflexivity];
  revert Hin; trace_simpl; cbn [In]; intros Hin;
  repeat (destruct Hin as [Hin | Hin]; [try discriminate Hin |]);
  try contradiction.

Lemma stage_calls_of_present_branch (f : SourceFile) (path : string)
    (align_timestamps diarize : bool) (self : Transcriber) (w : World) :
  let o := (load_model_in f ;;
            try_except (transcribe_body_in f path align_timestamps diarize)
                       (transcribe_handler_in f)) self w in
  (forall m au b r,
      In (EvTranscribe m au b r) (events o) ->
      model (self_of o) = Some m /\ b = 16
      /\ In (EvLoadAudio path (Ok au)) (events o))
  /\ (forall segs am md au dev c r,
        In (EvAlign segs am md au dev c r) (events o) ->
        am = align_model (self_of o) /\ md = align_metadata (self_of o)
        /\ am <> None /\ md <> None /\ dev = device self /\ c = false)
  /\ (forall d input r,
        In (EvDiarize d input r) (events o) ->
        diarize_model (self_of o) = Some d).
Proof.
  intros o; subst o; destruct self as [dev ct mo am md dm name].
  destruct f, align_timestamps, diarize; py_sum_run;
    (split; [| split]); intros;
    match goal with Hin : In _ _ |- _ => stage_call Hin end;
    match goal with E : @eq Event _ _ |- _ => inv E end;
    repeat split; first [reflexivity | discriminate | trace_In].
Qed.

(** X2.  The stages of [transcribe_audio] run on the cached models, in either
    file and whatever the outcome of the call.  Every [self.model.transcribe]
    of the trace is made on the model that is cached when the call ends, with
    [batch_size=16], on audio that [whisperx.load_audio] returned for the
    given path.  Every [whisperx.align] receives the cached alignment model
    and metadata, neither of them [None], the transcriber's device and
    [return_char_alignments=False].  Every diarization is run by the cached
    pipeline. *)
Theorem stage_calls_use_cached_models :
  forall (f : SourceFile) (path : string) (align_timestamps diarize : bool)
         (self : Transcriber) (w : World),
    let o := transcribe_audio_in f path align_timestamps diarize self w in
    (forall m au b r,
        In (EvTranscribe m au b r) (events o) ->
        model (self_of o) = Some m /\ b = 16
        /\ In (EvLoadAudio path (Ok au)) (events o))
    /\ (forall segs am md au dev c r,
          In (EvAlign segs am md au dev c r) (events o) ->
          am = align_model (self_of o) /\ md = align_metadata (self_of o)
          /\ am <> None /\ md <> None /\ dev = device self /\ c = false)
    /\ (forall d input r,
          In (EvDiarize d input r) (events o) ->
          diarize_model (self_of o) = Some d).
Proof.
  intros f path a d self w o; subst o.
  apply transcribe_audio_cases; [| apply stage_calls_of_present_branch].
  cbv [bind print log ret]; cbn [events app In].
  repeat split; intros;
    match goal with Hin : _ \/ False |- _ => destruct Hin as [Hin | []] end;
    discriminate.
Qed.

(** transcriber.py cannot diarize: its [load_diarize_model] raises unless a
    pipeline is cached, and nothing in the file can cache one. *)
Lemma transcriber_py_present_branch_never_diarizes (path : string)
    (align_timestamps diarize : bool) (self : Transcriber) (w : World) :
  diarize_model self = None ->
  let o := (TranscriberPy.load_model ;;
            try_except
              (TranscriberPy.transcribe_body path align_timestamps diarize)
              TranscriberPy.transcribe_handler) self w in
  diarize_model (self_of o) = None
  /\ (diarize = true -> forall r, outcome o <> Ok (Some r))
  /\ (forall d input r, ~ In (EvDiarize d input r) (events o)).
Proof.
  intros Hnone o; subst o; destruct self as [dev ct mo am md dm name].
  cbn in Hnone; subst dm.
  destruct align_timestamps, diarize; py_sum_run;
    try congruence;
    (split;
     [ reflexivity
     | split;
       [ intros E r E'; first [discriminate E | discriminate E']
       | intros d input r Hin; stage_call Hin;
         try match goal with
             | E : @eq Event _ _ |- _ => discriminate E
             end ] ]).
Qed.

(** X3.  transcriber.py cannot diarize.  On a transcriber with no diarization
    pipeline cached, [transcribe_audio] of transcriber.py ends with none
    cached and never calls a pipeline; with [diarize=True] it returns no
    result: it returns [None] or raises. *)
Theorem transcriber_py_never_diarizes :
  forall (path : string) (align_timestamps diarize : bool)
         (self : Transcriber) (w : World),
    diarize_model self = None ->
    let o := TranscriberPy.transcribe_audio path align_timestamps diarize
               self w in
    diarize_model (self_of o) = None
    /\ (diarize = true -> forall r, outcome o <> Ok (Some r))
    /\ (forall d input r, ~ In (EvDiarize d input r) (events o)).
Proof.
  intros path a d self w Hnone o; subst o.
  change (TranscriberPy.transcribe_audio path a d self w)
    with (transcribe_audio_in transcriber_py path a d self w).
  apply transcribe_audio_cases.
  - cbv [bind print log ret]; cbn [events self_of outcome app In].
    split; [exact Hnone | split].
    + intros _ r E; discriminate E.
    + intros dm input r [E | []]; discriminate E.
  - apply transcriber_py_present_branch_never_diarizes, Hnone.
Qed.

(** *** Reloading after [set_model] *)

(** X4.  [set_model] forces a reload.  [set_model name], in either file,
    leaves the transcriber as the two assignments of [MainWindow.change_model]
    do.  The next [load_model], in whatever world, calls
    [whisperx.load_model] with the new name and the device and compute type
    the transcriber had.  If that returns, the new model is cached and
    nothing else has changed; if it raises, the exception leaves
    [load_model] and the transcriber stays without a model. *)
Theorem set_model_forces_reload :
  forall (f : SourceFile) (name : string) (self : Transcriber) (w w' : World),
    let self1 := self_of (set_model_in f name self w) in
    self1 = self_of (GuiPy.change_model name self w)
    /\ exists r w2,
        whisperx_load_model name (device self) (compute_type self) w'
        = (r, w2)
        /\ match r with
           | Ok m =>
               load_model_in f self1 w'
               = mkOut (Ok tt)
                   (mkTranscriber (device self) (compute_type self) (Some m)
                      (align_model self) (align_metadata self)
                      (diarize_model self) name)
                   w2
                   [EvPrint ("Loading WhisperX model: " ++ name);
                    EvLoadModel name (device self) (compute_type self) (Ok m);
                    EvPrint "WhisperX model loaded successfully."]
           | Raise e =>
               load_model_in f self1 w'
               = mkOut (Raise e) self1 w2
                   [EvPrint ("Loading WhisperX model: " ++ name);
                    EvLoadModel name (device self) (compute_type self)
                                (Raise e)]
           end.
Proof.
  intros f name self w w' self1; subst self1.
  split; [destruct f; reflexivity |].
  destruct (whisperx_load_model name (device self) (compute_type self) w')
    as [r w2] eqn:Hload.
  exists r, w2; split; [reflexivity |].
  destruct f; py_unfold; py_simpl; rewrite Hload; destruct r; reflexivity.
Qed.

(** *** The configuration attributes *)

Lemma configured_load_model (f : SourceFile) (dev ctype name : string) :
  respects (configured dev ctype name) any_event (load_model_in f).
Proof. unfold configured; destruct f; respects_auto. Qed.

Lemma configured_transcribe_audio (f : SourceFile) (dev ctype name : string)
    (path : string) (align_timestamps diarize : bool) :
  respects (configured dev ctype name) any_event
           (transcribe_audio_in f path align_timestamps diarize).
Proof.
  apply respects_transcribe_audio;
    [reflexivity | apply configured_load_model |].
  unfold configured; destruct f; respects_auto.
Qed.

Lemma configured_run (dev ctype name : string)
    (t : GuiPy.TranscriptionThread) :
  respects (configured dev ctype name) any_event (GuiPy.run t).
Proof.
  unfold GuiPy.run.
  apply respects_try.
  - apply respects_bind;
      [apply (configured_transcribe_audio gui_py) |].
    intros result; destruct (GuiPy.truthy result); [destruct result |];
      first [apply respects_log; reflexivity | apply respects_ret].
  - intros e; apply respects_log; reflexivity.
Qed.

(** X5.  Transcribing does not reconfigure.  Neither [transcribe_audio], in
    either file, nor [TranscriptionThread.run] changes [device],
    [compute_type] or [model_name] of the transcriber, whatever their
    outcome. *)
Theorem transcription_keeps_configuration :
  forall (f : SourceFile) (path : string) (align_timestamps diarize : bool)
         (t : GuiPy.TranscriptionThread) (self : Transcriber) (w : World),
    configured (device self) (compute_type self) (model_name self)
               (self_of (transcribe_audio_in f path align_timestamps diarize
                                             self w))
    /\ configured (device self) (compute_type self) (model_name self)
                  (self_of (GuiPy.run t self w)).
Proof.
  intros f path a d t self w.
  assert (Hself : configured (device self) (compute_type self)
                             (model_name self) self)
    by (repeat split).
  split.
  - apply (configured_transcribe_audio f _ _ _ path a d self w Hself).
  - apply (configured_run _ _ _ t self w Hself).
Qed.

(** *** The first call on a new transcriber *)

(** X6.  On a transcriber as [__init__] leaves it, [transcribe_audio] of a
    file that exists begins by printing "Loading WhisperX model: small.en"
    and calling [whisperx.load_model] for "small.en" with the device and the
    compute type chosen by [__init__], which are cuda and float16, cuda and
    int8, or cpu and int8. *)
Theorem first_call_loads_default_model :
  forall (f : SourceFile) (path : string) (align_timestamps diarize : bool)
         (w0 w : World),
    os_path_exists path w = true ->
    let self := init w0 in
    (exists r rest,
        events (transcribe_audio_in f path align_timestamps diarize self w)
        = EvPrint "Loading WhisperX model: small.en"
          :: EvLoadModel "small.en" (device self) (compute_type self) r
          :: rest)
    /\ ((device self = "cuda" /\ compute_type self = "float16")
        \/ (device self = "cuda" /\ compute_type self = "int8")
        \/ (device self = "cpu" /\ compute_type self = "int8")).
Proof.
  intros f path a d w0 w Hexists self; split.
  - rewrite (transcribe_audio_present f path a d self w Hexists).
    subst self; unfold init.
    destruct f;
      cbv [load_model_in TranscriberPy.load_model GuiPy.load_model
           bind ret get_self ext print log set_self_model put_self];
      py_simpl;
      match goal with
      | |- context [whisperx_load_model ?n ?dv ?ct w] =>
          destruct (whisperx_load_model n dv ct w) as [[m | e] w1]
      end; py_simpl;
      try (do 2 eexists; reflexivity);
      match goal with
      | |- context [try_except ?b ?h ?s ?w1] =>
          destruct (try_except b h s w1) as [r1 s1 w2 evs]
      end; py_simpl; do 2 eexists; reflexivity.
  - subst self; unfold init; cbn [device compute_type].
    destruct (torch_cuda_is_available w0); cbn [andb];
      [destruct (Nat.leb 7 (fst (torch_cuda_get_device_capability w0))) |];
      auto.
Qed.

(** *** Runs in which no call raises *)

Lemma load_model_returns (f : SourceFile) (self : Transcriber) (w : World) :
  existsb raised (events (load_model_in f self w)) = false ->
  outcome (load_model_in f self w) = Ok tt.
Proof.
  destruct self as [dev ct mo am md dm name].
  destruct f; py_run; cbn [existsb raised orb]; intros Hno;
    first [reflexivity | discriminate Hno].
Qed.

Lemma load_align_model_returns (f : SourceFile) (language_code : string)
    (self : Transcriber) (w : World) :
  (align_model self <> None -> align_metadata self <> None) ->
  existsb raised (events (load_align_model_in f language_code self w))
  = false ->
  outcome (load_align_model_in f language_code self w) = Ok tt.
Proof.
  destruct self as [dev ct mo am md dm name]; py_simpl.
  destruct f; py_run; cbn [existsb raised orb]; intros Hmd Hno;
    first [reflexivity | discriminate Hno
          | exfalso; apply Hmd; [discriminate | reflexivity]].
Qed.

Lemma load_diarize_model_returns (f : SourceFile) (self : Transcriber)
    (w : World) :
  (f = transcriber_py -> diarize_model self <> None) ->
  existsb raised (events (load_diarize_model_in f self w)) = false ->
  outcome (load_diarize_model_in f self w) = Ok tt.
Proof.
  destruct self as [dev ct mo am md dm name]; py_simpl.
  destruct f; py_run; cbn [existsb raised orb]; intros Hdm Hno;
    first [reflexivity | discriminate Hno
          | exfalso; apply Hdm; reflexivity ].
Qed.


(** Run [transcribe_audio] with the loaders as single steps, of which the
    attribute they may have set and what makes them return are kept. *)
Ltac use_loader sum ret call :=
  lazymatch call with
  | context [match _ with _ => _ end] => fail
  | _ => idtac
  end;
  let H := fresh "Hsum" in
  let R := fresh "Hret" in
  pose proof sum as H;
  pose proof ret as R;
  cbv [load_model_in load_align_model_in load_diarize_model_in] in H, R;
  cbv zeta in H;
  destruct call as [[[] | ?] ? ? ?];
  cbn [outcome self_of events device compute_type model align_model
       align_metadata diarize_model model_name] in H, R;
  repeat match goal with
         | K : exists _, _ |- _ => destruct K
         | K : _ /\ _ |- _ => destruct K
         | K : ?a = ?a -> _ |- _ => specialize (K eq_refl)
         | K : gui_py = transcriber_py -> _ |- _ => clear K
         end;
  subst; py_simpl.

Ltac py_ret_step :=
  match goal with
  | |- context [TranscriberPy.load_model ?s ?w] =>
      use_loader (load_model_summary transcriber_py s w)
                 (load_model_returns transcriber_py s w)
                 (TranscriberPy.load_model s w)
  | |- context [GuiPy.load_model ?s ?w] =>
      use_loader (load_model_summary gui_py s w)
                 (load_model_returns gui_py s w) (GuiPy.load_model s w)
  | |- context [TranscriberPy.load_align_model ?c ?s ?w] =>
      use_loader (load_align_model_summary transcriber_py c s w)
                 (load_align_model_returns transcriber_py c s w)
                 (TranscriberPy.load_align_model c s w)
  | |- context [GuiPy.load_align_model ?c ?s ?w] =>
      use_loader (load_align_model_summary gui_py c s w)
                 (load_align_model_returns gui_py c s w)
                 (GuiPy.load_align_model c s w)
  | |- context [TranscriberPy.load_diarize_model ?s ?w] =>
      use_loader (load_diarize_model_summary transcriber_py s w)
                 (load_diarize_model_returns transcriber_py s w)
                 (TranscriberPy.load_diarize_model s w)
  | |- context [GuiPy.load_diarize_model ?s ?w] =>
      use_loader (load_diarize_model_summary gui_py s w)
                 (load_diarize_model_returns gui_py s w)
                 (GuiPy.load_diarize_model s w)
  | |- context [match ?x with _ => _ end] =>
      lazymatch x with
      | context [match _ with _ => _ end] => fail
      | _ => destruct x
      end; py_simpl
  end.

Ltac py_ret_run :=
  cbv [load_model_in transcribe_body_in transcribe_handler_in
       TranscriberPy.transcribe_body GuiPy.transcribe_body
       TranscriberPy.transcribe_handler GuiPy.transcribe_handler
       bind ret raise try_except ext get_self log print];
  py_simpl; repeat py_ret_step.

(** A trace without a call that raised has none in any of its parts. *)
Ltac split_trace Hno :=
  repeat first
    [ rewrite existsb_app in Hno
    | rewrite orb_false_iff in Hno
    | progress cbn [existsb raised orb] in Hno ];
  repeat match goal with
         | H : _ /\ _ |- _ => destruct H
         end.

Lemma present_branch_returns (f : SourceFile) (path : string)
    (align_timestamps diarize : bool) (self : Transcriber) (w : World) :
  let o := (load_model_in f ;;
            try_except (transcribe_body_in f path align_timestamps diarize)
                       (transcribe_handler_in f)) self w in
  (align_timestamps = true ->
   align_model self <> None -> align_metadata self <> None) ->
  (f = transcriber_py -> diarize = true -> diarize_model self <> None) ->
  existsb raised (events o) = false ->
  exists r, outcome o = Ok (Some r).
Proof.
  intros o; subst o; destruct self as [dev ct mo am md dm name]; py_simpl.
  intros Halign Hdiarize.
  destruct f, align_timestamps, diarize;
    try specialize (Halign eq_refl);
    try specialize (Hdiarize eq_refl eq_refl);
    py_ret_run; intros Hno;
    first
      [ eexists; reflexivity
      | exfalso; split_trace Hno;
        repeat match goal with
               | H : ?P -> _, K : ?P |- _ => specialize (H K)
               | H : (?a = transcriber_py -> ?Q) -> _ |- _ =>
                   let K := fresh "Hpre" in
                   assert (K : a = transcriber_py -> Q)
                     by (let E := fresh "E" in
                         intros E;
                         first [discriminate E | assumption | discriminate]);
                   specialize (H K); clear K
               end;
        first [ discriminate | congruence ] ].
Qed.

(** X15.  When every external call returns, [transcribe_audio] runs the
    whole plan.  For a path that exists, in gui.py, and in transcriber.py
    when [diarize] is false or a diarization pipeline is already cached: if
    no external call of the run raises (and a cached alignment model has its
    metadata), the call returns a result, its stage calls are exactly
    transcription, then alignment if [align_timestamps], then the
    diarization call and the speaker assignment if [diarize], each on the
    data of the one before it, and the value returned is the result of the
    last of them. *)
Theorem transcribe_audio_runs_the_plan :
  forall (f : SourceFile) (path : string) (align_timestamps diarize : bool)
         (self : Transcriber) (w : World),
    os_path_exists path w = true ->
    (align_timestamps = true ->
     align_model self <> None -> align_metadata self <> None) ->
    (f = transcriber_py -> diarize = true -> diarize_model self <> None) ->
    let o := transcribe_audio_in f path align_timestamps diarize self w in
    every_call_returned (events o) ->
    exists r,
      outcome o = Ok (Some r)
      /\ stage_kinds (events o) = planned align_timestamps diarize
      /\ ran_pipeline f path align_timestamps diarize (events o) r.
Proof.
  intros f path a d self w Hexists Halign Hdiarize o; subst o.
  rewrite (transcribe_audio_present f path a d self w Hexists).
  intros Hreturned.
  destruct (present_branch_returns f path a d self w Halign Hdiarize
              Hreturned) as [r Hr].
  exists r; split; [exact Hr |].
  exact (proj1 (proj2 (stages_of_present_branch f path a d self w)) r Hr).
Qed.

(** *** The trace of the worker thread *)

Lemma run_trace (t : GuiPy.TranscriptionThread) (self : Transcriber)
    (w : World) :
  let r := GuiPy.transcribe_audio (GuiPy.audio_file t)
             (GuiPy.align_timestamps t) (GuiPy.diarize t) self w in
  let o := GuiPy.run t self w in
  signals (events o) = [completion_signal (outcome r)]
  /\ self_of o = self_of r
  /\ world_of o = world_of r.
Proof.
  intros r o.
  assert (Hquiet : signals (events r) = []).
  { apply forallb_not_signal.
    apply (no_signal_transcribe_audio gui_py _ _ _ self w I). }
  assert (Hone : forall s, is_signal s = true ->
                           signals (events r ++ [s]) = [s]).
  { intros s Hs; unfold signals in *.
    rewrite filter_app, Hquiet; simpl; now rewrite Hs. }
  subst o; unfold GuiPy.run, try_except, bind, log.
  fold r; clearbody r.
  destruct r as [[[x |] | e] self1 w1 evs1]; simpl in *;
    try destruct (result_truthy x); simpl;
    repeat split; try (rewrite app_nil_r); apply Hone; reflexivity.
Qed.

End Properties.

(** * The code on the simulated library *)

(** C7 on a concrete call. *)
Lemma transcribe_audio_missing_file_witness :
  @transcribe_audio_in (sim well_behaved) gui_py "missing.wav" true true
                       warmed_up 7
  = mkOut (Ok None) warmed_up 7
          [EvPrint "Error: Audio file not found at missing.wav"].
Proof.
  apply (@transcribe_audio_missing_file (sim well_behaved) gui_py
           "missing.wav" true true warmed_up 7).
  reflexivity.
Defined.

(** C6 on a concrete call: a second full run on a transcriber that already
    holds a diarization pipeline. *)
Lemma diarize_model_never_replaced_witness :
  keeps_diarize_model (L := sim well_behaved) tt
    (transcribe_audio_in gui_py "b.wav" true true warmed_up 11).
Proof.
  exact (proj1 (proj2 (@diarize_model_never_replaced (sim well_behaved)
                         gui_py tt warmed_up 11 eq_refl))
               "b.wav" true true).
Defined.

(** C1 fails on the code.  An audio file that exists, [align_timestamps] and
    [diarize] both true, a new transcriber and every library call
    returning.  gui.py runs the three stages in order and returns the result
    of the last.  transcriber.py runs transcription and alignment, then
    stops in [load_diarize_model] at the NameError for [yaml]: the
    diarization stage never runs although [diarize] is true, and the value
    returned is [None], not the result of the last stage that ran. *)
Theorem transcriber_py_skips_diarization_stage :
  let lib := @transcribe_audio_in (sim well_behaved) transcriber_py "a.wav"
               true true (fresh well_behaved) 0 in
  let gui := @transcribe_audio_in (sim well_behaved) gui_py "a.wav"
               true true (fresh well_behaved) 0 in
  @os_path_exists (sim well_behaved) "a.wav" 0 = true
  /\ every_call_returned (events lib)
  /\ stage_kinds (events lib) = [Transcription; Alignment]
  /\ planned true true
     = [Transcription; Alignment; Diarization; SpeakerAssignment]
  /\ outcome lib = Ok None
  /\ tracebacks (events lib) = ["name 'yaml' is not defined"]
  /\ stage_kinds (events gui) = planned true true
  /\ outcome gui = Ok (Some ["transcribed"; "aligned"; "speakers"]).
Proof. repeat split. Qed.

(** X16 on a concrete call: all three stages, in order. *)
Lemma transcribe_audio_stage_order_witness :
  let o := @transcribe_audio_in (sim well_behaved) gui_py "a.wav" true true
             (fresh well_behaved) 0 in
  stage_kinds (events o)
  = [Transcription; Alignment; Diarization; SpeakerAssignment]
  /\ ran_pipeline gui_py "a.wav" true true (events o)
                  ["transcribed"; "aligned"; "speakers"].
Proof.
  exact (proj1 (proj2 (@transcribe_audio_stage_order (sim well_behaved)
                         gui_py "a.wav" true true (fresh well_behaved) 0
                         eq_refl))
               ["transcribed"; "aligned"; "speakers"] eq_refl).
Defined.

(** C10 on a concrete call: alignment fails after the acoustic and the
    alignment model were loaded. *)
Lemma transcribe_audio_error_keeps_loaded_models_witness :
  let o := @transcribe_audio_in (sim broken_align) transcriber_py "a.wav"
             true false (fresh broken_align) 0 in
  outcome o = Ok None /\ loaded_models_cached (events o) (self_of o).
Proof.
  apply (@transcribe_audio_error_keeps_loaded_models (sim broken_align)
           transcriber_py "a.wav" true false (fresh broken_align) 0
           "alignment failed").
  vm_compute; repeat first [left; reflexivity | right].
Defined.

Example error_run_leaves_models_cached :
  let o := @transcribe_audio_in (sim broken_align) transcriber_py "a.wav"
             true false (fresh broken_align) 0 in
  outcome o = Ok None
  /\ model (self_of o) = Some "small.en"
  /\ align_model (self_of o) = Some "en"
  /\ align_metadata (self_of o) = Some "en".
Proof. repeat split. Qed.

(** C2 fails on the code.  The file exists and [whisperx.load_model] raises:
    in both files the exception leaves [transcribe_audio], which neither
    catches it nor prints anything about it (the trace ends at the call that
    raised), where the claim has it caught, logged and answered by [None].
    [self.load_model()] stands before the [try] block, while the two other
    loaders are called inside it. *)
Theorem load_model_failure_escapes :
  let lib := @transcribe_audio_in (sim broken_load_model) transcriber_py
               "a.wav" false false (fresh broken_load_model) 0 in
  let gui := @transcribe_audio_in (sim broken_load_model) gui_py
               "a.wav" false false (fresh broken_load_model) 0 in
  @os_path_exists (sim broken_load_model) "a.wav" 0 = true
  /\ outcome lib = Raise "cannot load model"
  /\ outcome gui = Raise "cannot load model"
  /\ events lib
     = [EvPrint "Loading WhisperX model: small.en";
        EvLoadModel "small.en" "cpu" "int8" (Raise "cannot load model")]
  /\ events gui = events lib.
Proof. repeat split. Qed.

(** The same on a second call, when the object [whisperx.load_model]
    returned has no [model_name] attribute: the first call caches it, the
    second raises from [load_model]. *)
Example second_call_raises_without_model_name :
  let first := @transcribe_audio_in (sim nameless_model) transcriber_py
                 "a.wav" false false (fresh nameless_model) 0 in
  let second := @transcribe_audio_in (sim nameless_model) transcriber_py
                  "a.wav" false false (self_of first) (world_of first) in
  outcome first = Ok (Some ["transcribed"])
  /\ outcome second = Raise "object has no attribute 'model_name'"
  /\ self_of second = self_of first.
Proof. repeat split. Qed.

(** The worker thread turns that exception into its error signal. *)
Example run_reports_load_model_failure :
  signals (events (@GuiPy.run (sim broken_load_model)
                     (GuiPy.mkThread "a.wav" false false)
                     (fresh broken_load_model) 0))
  = [EvEmitError "cannot load model"].
Proof. reflexivity. Qed.

(** ** The two copies of [WhisperXTranscriber] *)

Section TwoCopies.
Context {L : Library}.

(** The methods whose text is the same in both files. *)
Lemma copies_agree_on_shared_methods (self : Transcriber) (w : World) :
  TranscriberPy.load_model self w = GuiPy.load_model self w
  /\ (forall language_code,
        TranscriberPy.load_align_model language_code self w
        = GuiPy.load_align_model language_code self w)
  /\ (forall name,
        TranscriberPy.set_model name self w = GuiPy.set_model name self w).
Proof. repeat split. Qed.

(** X14.  Without diarization the two files agree: [transcribe_audio]
    with [diarize=False] makes the same calls, prints the same lines, leaves
    the same transcriber and has the same outcome in transcriber.py and in
    gui.py. *)
Lemma copies_agree_without_diarization (path : string)
    (align_timestamps : bool) (self : Transcriber) (w : World) :
  TranscriberPy.transcribe_audio path align_timestamps false self w
  = GuiPy.transcribe_audio path align_timestamps false self w.
Proof. destruct align_timestamps; reflexivity. Qed.

(** With a pipeline already cached, [load_diarize_model] does nothing in
    either file. *)
Lemma copies_agree_on_cached_diarize_model (d : DiarizeModel)
    (self : Transcriber) (w : World) :
  diarize_model self = Some d ->
  TranscriberPy.load_diarize_model self w = GuiPy.load_diarize_model self w.
Proof.
  intros Hd; cbv [TranscriberPy.load_diarize_model GuiPy.load_diarize_model
                  bind get_self].
  rewrite Hd; reflexivity.
Qed.

(** transcriber.py cannot build a diarization pipeline: with none cached its
    [load_diarize_model] raises whatever the libraries do, and caches
    nothing. *)
Lemma transcriber_py_cannot_load_diarize_model (self : Transcriber)
    (w : World) :
  diarize_model self = None ->
  (exists e, outcome (TranscriberPy.load_diarize_model self w) = Raise e)
  /\ self_of (TranscriberPy.load_diarize_model self w) = self.
Proof.
  intros Hnone; destruct self as [dev ct mo am md dm name].
  simpl in Hnone; subst dm.
  py_run; split; try reflexivity; eexists; reflexivity.
Qed.

End TwoCopies.

(** C8 fails on the code.  A first call with [diarize=True], every library
    call succeeding: gui.py returns the labelled result and caches the
    pipeline; transcriber.py stops at the NameError for [yaml], returns
    [None] and caches no pipeline. *)
Theorem copies_diverge_on_diarization :
  let gui := @GuiPy.transcribe_audio (sim well_behaved) "a.wav" false true
               (fresh well_behaved) 0 in
  let lib := @TranscriberPy.transcribe_audio (sim well_behaved) "a.wav" false
               true (fresh well_behaved) 0 in
  outcome gui = Ok (Some ["transcribed"; "speakers"])
  /\ diarize_model (self_of gui) = Some tt
  /\ outcome lib = Ok None
  /\ diarize_model (self_of lib) = None
  /\ tracebacks (events lib) = ["name 'yaml' is not defined"].
Proof. repeat split. Qed.

(** Even with the pipeline cached the two files call it on different
    things: the waveform in transcriber.py, the path in gui.py. *)
Example copies_diverge_on_diarization_input :
  In (EvDiarize (L := sim well_behaved) tt (inl "a.wav") (Ok (inl "a.wav")))
     (events (@TranscriberPy.transcribe_audio (sim well_behaved) "a.wav"
                false true warmed_up 11))
  /\ In (EvDiarize (L := sim well_behaved) tt (inr "a.wav")
                   (Ok (inr "a.wav")))
        (events (@GuiPy.transcribe_audio (sim well_behaved) "a.wav"
                   false true warmed_up 11)).
Proof.
  split; vm_compute; repeat first [left; reflexivity | right].
Qed.


(** * setup.py *)

Section PackageFiles.
Context {L : Library}.
Variable os_walk : string -> list (string * list string * list string).

Lemma append_each {A} (g : A -> string) (xs : list A) (acc : list string) :
  fold_left (fun paths x => (paths ++ [g x])%list) xs acc
  = (acc ++ map g xs)%list.
Proof.
  revert acc; induction xs as [| x xs IH]; intros acc; simpl.
  - now rewrite app_nil_r.
  - rewrite IH, <- app_assoc; reflexivity.
Qed.

(** The two loops, as one comprehension. *)
Lemma package_files_loop (walk : list (string * list string * list string))
    (acc : list string) :
  fold_left
    (fun paths entry =>
       let '(path, directories, filenames) := entry in
       fold_left
         (fun paths filename =>
            (paths ++ [os_path_join [".."; path; filename]])%list)
         filenames paths)
    walk acc
  = (acc ++ flat_map SetupPy.files_of walk)%list.
Proof.
  revert acc; induction walk as [| [[path dirs] files] walk IH];
    intros acc; simpl.
  - now rewrite app_nil_r.
  - rewrite IH, append_each, <- app_assoc; reflexivity.
Qed.

Lemma package_files_flat_map (directory : string) :
  SetupPy.package_files os_walk directory
  = flat_map SetupPy.files_of (os_walk directory).
Proof. apply (package_files_loop (os_walk directory) []). Qed.

(** X7.  [package_files] returns one path for each file name of the walk of
    the directory, no more: the paths are as many as the file names that
    [os.walk] yields, and a path is returned exactly when it is
    [os.path.join('..', path, filename)] for a triple of the walk and a file
    name of that triple. *)
Theorem package_files_lists_the_files_of_the_walk :
  forall (directory : string),
    length (SetupPy.package_files os_walk directory)
    = list_sum (map (fun entry : string * list string * list string =>
                       length (snd entry))
                    (os_walk directory))
    /\ forall p,
        In p (SetupPy.package_files os_walk directory)
        <-> exists path directories filenames filename,
            In (path, directories, filenames) (os_walk directory)
            /\ In filename filenames
            /\ p = os_path_join [".."; path; filename].
Proof.
  intros directory; rewrite package_files_flat_map; split.
  - induction (os_walk directory) as [| [[path dirs] files] walk IH];
      simpl; [reflexivity |].
    rewrite length_app, IH; unfold SetupPy.files_of; rewrite length_map; reflexivity.
  - intros p; rewrite in_flat_map; split.
    + intros ([[path dirs] files] & Hentry & Hp).
      unfold SetupPy.files_of in Hp; apply in_map_iff in Hp; destruct Hp as (name & <- & Hname).
      exists path, dirs, files, name; auto.
    + intros (path & dirs & files & name & Hentry & Hname & ->).
      exists (path, dirs, files); split; [exact Hentry |].
      unfold SetupPy.files_of; apply in_map_iff; exists name; auto.
Qed.

End PackageFiles.

(** * gui.py: the main window *)

Section WindowProperties.
Context {L : Library} {D : Desktop}.
Import WindowPy.

(** ** Showing a result *)

(** Compute the widget setters on a window given by its fields. *)
Ltac win_simpl :=
  cbv [append clear set_output_text set_transcribe_button set_save_button
       set_transcriber set_audio_file set_transcription_thread
       set_file_label set_model_combo set_align_checkbox
       set_diarize_checkbox
       transcriber audio_file transcription_thread file_label model_combo
       align_checkbox diarize_checkbox transcribe_button save_button
       progress_bar output_text] in *;
  cbn [fst snd] in *.

Lemma progress_set_value_0 (win : MainWindow) :
  progress_set_value 0 win
  = mkWindow (transcriber win) (audio_file win) (transcription_thread win)
             (file_label win) (model_combo win) (align_checkbox win)
             (diarize_checkbox win) (transcribe_button win) (save_button win)
             0%Z (output_text win).
Proof. reflexivity. Qed.

Lemma progress_set_value_100 (win : MainWindow) :
  progress_set_value 100 win
  = mkWindow (transcriber win) (audio_file win) (transcription_thread win)
             (file_label win) (model_combo win) (align_checkbox win)
             (diarize_checkbox win) (transcribe_button win) (save_button win)
             100%Z (output_text win).
Proof. reflexivity. Qed.

(** The loop writes to the output pane and nowhere else. *)
Lemma display_segments_frame (segments : list (Segment Seconds))
    (win : MainWindow) :
  snd (display_segments segments win)
  = set_output_text (output_text (snd (display_segments segments win))) win.
Proof.
  revert win; induction segments as [| s rest IH]; intros win.
  - destruct win; reflexivity.
  - cbn [display_segments].
    destruct win as [tr af th fl mc al di tb sb pb out]; win_simpl.
    destruct al, (seg_start s), (seg_end s), di, (seg_speaker s),
      (seg_text s); win_simpl; try reflexivity;
      match goal with
      | |- snd (display_segments rest ?w) = _ =>
          rewrite (IH w); win_simpl; reflexivity
      end.
Qed.

(** Segments that have the keys are appended in full, one after the other,
    and the loop goes on with what follows them. *)
Lemma display_segments_app (shown rest : list (Segment Seconds))
    (win : MainWindow) :
  Forall (has_keys (align_checkbox win)) shown ->
  display_segments (shown ++ rest) win
  = display_segments rest
      (set_output_text
         (appended (flat_map (segment_lines (align_checkbox win)
                                            (diarize_checkbox win)) shown)
                   (output_text win))
         win).
Proof.
  intros Hkeys; revert win Hkeys.
  induction shown as [| s shown IH]; intros win Hkeys.
  - cbn; destruct win; reflexivity.
  - inversion Hkeys as [| ? ? [Htext Htimes] Hshown]; subst.
    destruct win as [tr af th fl mc al di tb sb pb out]; win_simpl.
    cbn [display_segments flat_map app]; win_simpl.
    unfold appended; rewrite fold_left_app.
    unfold segment_lines, timestamp_line, speaker_lines.
    destruct (seg_text s) as [text |]; [| congruence].
    destruct al.
    + destruct (Htimes eq_refl) as [Hstart Hend].
      destruct (seg_start s) as [t0 |]; [| congruence].
      destruct (seg_end s) as [t1 |]; [| congruence].
      destruct di, (seg_speaker s) as [speaker |];
        rewrite IH by exact Hshown; win_simpl;
        cbn [shown_text app fold_left]; reflexivity.
    + destruct di, (seg_speaker s) as [speaker |];
        rewrite IH by exact Hshown; win_simpl;
        cbn [shown_text app fold_left]; reflexivity.
Qed.

(** X8.  [display_transcription] of a well-formed result.  If the result has
    no ['segments'], or each segment has its ['text'] and, when the align box
    is checked, its ['start'] and ['end'], the slot returns.  It has cleared
    the text edit and then called [append] on it with exactly these strings,
    in this order: for each segment in turn the time stamp if the align box
    is checked, the speaker line if the diarize box is checked and the
    segment has a speaker, the text, the empty string; without ['segments'],
    the ['text'] of the result or "No transcription available.".  Both
    buttons are enabled, the progress bar is at 100 and nothing else of the
    window has changed.  What the text edit renders from those calls is
    Qt's. *)
Theorem display_transcription_shows :
  forall (result : ResultDict Seconds) (win : MainWindow),
    match dict_segments result with
    | Some segments => Forall (has_keys (align_checkbox win)) segments
    | None => True
    end ->
    display_transcription result win
    = (Ok tt,
       mkWindow (transcriber win) (audio_file win) (transcription_thread win)
         (file_label win) (model_combo win) (align_checkbox win)
         (diarize_checkbox win) true true 100%Z
         (appended
            (match dict_segments result with
             | Some segments =>
                 flat_map (segment_lines (align_checkbox win)
                                         (diarize_checkbox win)) segments
             | None =>
                 [match dict_text result with
                  | Some text => text
                  | None => "No transcription available."
                  end]
             end)
            (text_edit_clear (output_text win)))).
Proof.
  intros result win Hkeys; unfold display_transcription.
  destruct win as [tr af th fl mc al di tb sb pb out]; win_simpl.
  destruct (dict_segments result) as [segments |].
  - pose proof (display_segments_app segments []
                  (mkWindow tr af th fl mc al di tb sb pb
                            (text_edit_clear out)) Hkeys)
      as Hshown.
    rewrite app_nil_r in Hshown; rewrite Hshown.
    cbn [display_segments]; rewrite progress_set_value_100; win_simpl.
    reflexivity.
  - rewrite progress_set_value_100; win_simpl; reflexivity.
Qed.

(** X9.  [display_transcription] of a segment without ['text'].  If the
    segments before it are well-formed, the slot raises KeyError('text')
    there.  By then it has cleared the text edit and called [append] with
    the strings of the segments before it and with the time stamp and the
    speaker line of the segment itself; the buttons and the progress bar are
    not touched, so that a window whose Transcribe button was disabled by
    [start_transcription] stays so. *)
Theorem display_transcription_missing_text :
  forall (result : ResultDict Seconds)
         (shown rest : list (Segment Seconds)) (segment : Segment Seconds)
         (win : MainWindow),
    dict_segments result = Some (shown ++ segment :: rest)%list ->
    Forall (has_keys (align_checkbox win)) shown ->
    seg_text segment = None ->
    (align_checkbox win = true ->
     seg_start segment <> None /\ seg_end segment <> None) ->
    display_transcription result win
    = (Raise "'text'",
       set_output_text
         (appended
            (flat_map (segment_lines (align_checkbox win)
                                     (diarize_checkbox win)) shown
             ++ (if align_checkbox win then [timestamp_line segment] else [])
             ++ (if diarize_checkbox win then speaker_lines segment else []))
            (text_edit_clear (output_text win)))
         win).
Proof.
  intros result shown rest s win Hsegments Hkeys Htext Htimes.
  unfold display_transcription; rewrite Hsegments.
  destruct win as [tr af th fl mc al di tb sb pb out]; win_simpl.
  rewrite (display_segments_app shown (s :: rest)
             (mkWindow tr af th fl mc al di tb sb pb (text_edit_clear out))
             Hkeys).
  win_simpl; cbn [display_segments]; win_simpl.
  unfold appended; rewrite fold_left_app.
  unfold timestamp_line, speaker_lines; rewrite Htext.
  destruct al.
  - destruct (Htimes eq_refl) as [Hstart Hend].
    destruct (seg_start s) as [t0 |]; [| congruence].
    destruct (seg_end s) as [t1 |]; [| congruence].
    destruct di, (seg_speaker s); win_simpl;
      cbn [shown_text app fold_left]; reflexivity.
  - destruct di, (seg_speaker s); win_simpl;
      cbn [shown_text app fold_left]; reflexivity.
Qed.

(** ** When a worker thread finishes *)

Lemma finish_delivers (t : GuiPy.TranscriptionThread) (win : MainWindow)
    (w : World) :
  let r := GuiPy.transcribe_audio (GuiPy.audio_file t)
             (GuiPy.align_timestamps t) (GuiPy.diarize t)
             (transcriber win) w in
  finish t win w
  = (deliver (set_transcriber (self_of r) win)
             (completion_signal (outcome r)),
     world_of r).
Proof.
  intros r; unfold finish.
  destruct (run_trace t (transcriber win) w) as (Hsignals & Hself & Hworld).
  fold r in Hsignals, Hself, Hworld.
  rewrite Hsignals, Hself, Hworld; reflexivity.
Qed.

(** X10.  What a finished worker thread does to the window.  A run whose
    [transcribe_audio] returned a non-empty result is shown by
    [display_transcription] on the transcriber as the run left it.  Every
    other run (an empty result, [None], an exception) goes through
    [display_error]: the text edit is cleared and [append] is called once,
    with "Error: " followed by the fixed message or by [str] of the
    exception; Transcribe is enabled, the progress bar is at 0 and the Save
    button is as it was.  The world is the one [transcribe_audio] left.  The
    run of the thread is taken as one step. *)
Theorem finished_thread_updates_window :
  forall (t : GuiPy.TranscriptionThread) (win : MainWindow) (w : World),
    let r := GuiPy.transcribe_audio (GuiPy.audio_file t)
               (GuiPy.align_timestamps t) (GuiPy.diarize t)
               (transcriber win) w in
    snd (finish t win w) = world_of r
    /\ match outcome r with
       | Ok (Some x) =>
           if result_truthy x then
             fst (finish t win w)
             = snd (display_transcription
                      (as_dict x) (set_transcriber (self_of r) win))
           else
             fst (finish t win w)
             = mkWindow (self_of r) (audio_file win)
                 (transcription_thread win) (file_label win)
                 (model_combo win) (align_checkbox win)
                 (diarize_checkbox win) true (save_button win) 0%Z
                 (text_edit_append
                    "Error: Transcription failed. Please check the console for errors."
                    (text_edit_clear (output_text win)))
       | Ok None =>
           fst (finish t win w)
           = mkWindow (self_of r) (audio_file win)
               (transcription_thread win) (file_label win)
               (model_combo win) (align_checkbox win)
               (diarize_checkbox win) true (save_button win) 0%Z
               (text_edit_append
                  "Error: Transcription failed. Please check the console for errors."
                  (text_edit_clear (output_text win)))
       | Raise e =>
           fst (finish t win w)
           = mkWindow (self_of r) (audio_file win)
               (transcription_thread win) (file_label win)
               (model_combo win) (align_checkbox win)
               (diarize_checkbox win) true (save_button win) 0%Z
               (text_edit_append ("Error: " ++ e)
                                 (text_edit_clear (output_text win)))
       end.
Proof.
  intros t win w r; rewrite (finish_delivers t win w); fold r.
  split; [reflexivity |].
  destruct (outcome r) as [[x |] | e]; cbn [completion_signal fst];
    try destruct (result_truthy x); cbn [deliver];
    try reflexivity;
    unfold display_error; rewrite progress_set_value_0;
    destruct win; reflexivity.
Qed.

(** ** The window invariant *)

(** What a slot can have done to the window: [display_transcription] that
    returned, [display_transcription] that raised, [display_error]. *)
Lemma deliver_cases (win : MainWindow) (signal : Event) :
  is_signal signal = true ->
  exists tb sb pb out,
    deliver win signal
    = mkWindow (transcriber win) (audio_file win) (transcription_thread win)
               (file_label win) (model_combo win) (align_checkbox win)
               (diarize_checkbox win) tb sb pb out
    /\ ((tb = true /\ sb = true /\ pb = 100%Z)
        \/ (tb = transcribe_button win /\ sb = save_button win
            /\ pb = progress_bar win)
        \/ (tb = true /\ sb = save_button win /\ pb = 0%Z)).
Proof.
  intros Hsignal; destruct signal; try discriminate Hsignal;
    cbn [deliver].
  - unfold display_transcription.
    destruct (dict_segments (as_dict x)) as [segments |].
    + pose proof (display_segments_frame segments (clear win)) as Hframe.
      destruct (display_segments segments (clear win)) as [[[] | e] win1];
        cbn [snd] in *; rewrite Hframe;
        try rewrite progress_set_value_100;
        destruct win; win_simpl; do 4 eexists; split;
        try reflexivity; auto.
    + rewrite progress_set_value_100; destruct win; win_simpl.
      do 4 eexists; split; [reflexivity | auto].
  - unfold display_error; rewrite progress_set_value_0.
    destruct win; win_simpl; do 4 eexists; split; [reflexivity | auto 6].
Qed.

Lemma completion_signal_is_signal (r : res (option Result)) :
  is_signal (completion_signal r) = true.
Proof.
  destruct r as [[x |] | e]; cbn; try reflexivity.
  destruct (result_truthy x); reflexivity.
Qed.

Lemma new_app_consistent (w : World) : consistent (new_app w).
Proof.
  unfold consistent, new_app, new_window; cbn.
  repeat split; try discriminate; try congruence; auto.
Qed.

Lemma step_consistent (a a' : App) :
  consistent a -> step a a' -> consistent a'.
Proof.
  intros (Hbutton & Hrunning & Hsave & Hcombo & Hitem & Hprogress & Hlabel)
         Hstep.
  destruct Hstep as [a | a name Hin Hnew | a | a | a Henabled | a Henabled
                     | a before after t Hsplit];
    destruct a as [win w threads]; cbn [window world running] in *;
    unfold consistent; cbn [window world running].
  - (* select_file *)
    unfold select_file.
    destruct (get_open_file_name w) as [file_name w'].
    destruct (negb (String.eqb file_name "")); cbn [fst snd];
      [| repeat split; assumption].
    destruct win; win_simpl.
    repeat split; try assumption; try discriminate; auto.
  - (* the combo box *)
    unfold change_model; destruct win; win_simpl.
    repeat split; assumption.
  - destruct win; win_simpl; repeat split; assumption.
  - destruct win; win_simpl; repeat split; assumption.
  - (* start_transcription *)
    specialize (Hbutton Henabled).
    unfold start_transcription; rewrite progress_set_value_0.
    destruct win as [tr af th fl mc al di tb sb pb out]; win_simpl.
    destruct af as [file |]; [| congruence]; win_simpl.
    repeat split; try assumption; try discriminate; auto.
  - (* save_output *)
    repeat split; assumption.
  - (* a thread finishes *)
    assert (Hfile : audio_file win <> None)
      by (apply Hrunning; rewrite Hsplit; destruct before; discriminate).
    rewrite (finish_delivers t win w); cbn [fst snd].
    set (r := GuiPy.transcribe_audio _ _ _ (transcriber win) w).
    destruct (deliver_cases (set_transcriber (self_of r) win)
                (completion_signal (outcome r))
                (completion_signal_is_signal _))
      as (tb' & sb' & pb' & out' & -> & Hcases).
    assert (Hname : model_name (self_of r) = model_name (transcriber win)).
    { assert (Hconf : configured (device (transcriber win))
                        (compute_type (transcriber win))
                        (model_name (transcriber win)) (transcriber win))
        by (repeat split).
      apply (configured_transcribe_audio gui_py _ _ _ _ _ _
               (transcriber win) w Hconf). }
    clearbody r.
    destruct win as [tr af th fl mc al di tb sb pb out]; win_simpl.
    repeat split; try assumption; try congruence;
      destruct Hcases as [(-> & -> & ->) | [(-> & -> & ->) | (-> & -> & ->)]];
      auto.
Qed.

Lemma consistent_of_reachable (a : App) : reachable a -> consistent a.
Proof.
  intros Hreach; induction Hreach as [w | a a' _ IH Hstep];
    [apply new_app_consistent | exact (step_consistent a a' IH Hstep)].
Qed.

(** X11.  The invariant of the window.  In every state the application can
    reach from its start by the user's actions (pick a file, pick a model,
    toggle a box, click an enabled button) and by worker threads finishing:
    Transcribe is enabled only when a file was selected; a thread runs only
    when a file was selected; Save is enabled only when Transcribe is; the
    combo box shows the transcriber's [model_name], one of its five items;
    the progress bar is at 0 or 100; the label shows the base name of the
    selected file, or "No file selected". *)
Theorem reachable_consistent :
  forall (a : App), reachable a -> consistent a.
Proof.
  intros a Hreach; induction Hreach as [w | a a' _ IH Hstep].
  - apply new_app_consistent.
  - exact (step_consistent a a' IH Hstep).
Qed.

(** X12.  A click on Transcribe never meets the missing [audio_file]
    attribute.  In every reachable state in which the button is enabled,
    [start_transcription] starts a thread on the selected file with the
    boxes as they are checked. *)
Theorem transcribe_click_starts_a_thread :
  forall (a : App),
    reachable a ->
    transcribe_button (window a) = true ->
    exists file,
      audio_file (window a) = Some file
      /\ fst (start_transcription (window a))
         = Ok (GuiPy.mkThread file (align_checkbox (window a))
                               (diarize_checkbox (window a))).
Proof.
  intros a Hreach Henabled.
  destruct (consistent_of_reachable a Hreach) as (Hbutton & _).
  specialize (Hbutton Henabled).
  destruct a as [win w threads]; cbn [window] in *.
  unfold start_transcription; rewrite progress_set_value_0.
  destruct win as [tr af th fl mc al di tb sb pb out]; win_simpl.
  destruct af as [file |]; [| congruence].
  exists file; split; reflexivity.
Qed.

(** X13.  [select_file] enables Transcribe again while a thread is running.
    From a reachable state with Transcribe enabled, a click disables the
    button; if the user then picks a file, a second click is possible and
    starts a second thread on the same transcriber before the first has
    finished. *)
Theorem second_transcription_can_start_before_first_ends :
  forall (a : App),
    reachable a ->
    transcribe_button (window a) = true ->
    fst (get_open_file_name (world a)) <> "" ->
    let a' :=
      after_click_transcribe (after_select_file (after_click_transcribe a)) in
    reachable a'
    /\ transcribe_button (window (after_click_transcribe a)) = false
    /\ exists file,
        audio_file (window a) = Some file
        /\ running a'
           = GuiPy.mkThread (fst (get_open_file_name (world a)))
                            (align_checkbox (window a))
                            (diarize_checkbox (window a))
             :: GuiPy.mkThread file (align_checkbox (window a))
                               (diarize_checkbox (window a))
             :: running a.
Proof.
  intros a Hreach Henabled Hname a'.
  destruct (consistent_of_reachable a Hreach) as (Hbutton & _).
  specialize (Hbutton Henabled).
  assert (Hsecond :
            transcribe_button
              (window (after_select_file (after_click_transcribe a)))
            = true).
  { destruct a as [win w threads]; cbn [window world] in *.
    unfold after_select_file, after_click_transcribe, select_file;
      cbn [window world].
    destruct (get_open_file_name w) as [name w']; cbn [fst] in Hname.
    destruct (String.eqb_spec name ""); [congruence |].
    reflexivity. }
  split.
  - subst a'.
    eapply reach_step; [| exact (ClickTranscribe _ Hsecond)].
    eapply reach_step; [| exact (SelectFile _)].
    eapply reach_step; [exact Hreach | exact (ClickTranscribe _ Henabled)].
  - subst a'; clear Hsecond Hreach.
    destruct a as [win w threads]; cbn [window world running] in *.
    unfold after_select_file, after_click_transcribe, select_file,
      start_transcription; cbn [window world running].
    rewrite !progress_set_value_0.
    destruct win as [tr af th fl mc al di tb sb pb out]; win_simpl.
    destruct af as [file |]; [| congruence].
    win_simpl; cbn [window world running].
    destruct (get_open_file_name w) as [name w']; cbn [fst] in Hname.
    destruct (String.eqb_spec name ""); [congruence |].
    win_simpl; cbn [window world running]; rewrite ?progress_set_value_0;
      win_simpl.
    split; [reflexivity |].
    exists file; split; reflexivity.
Qed.

End WindowProperties.

(** * The extensions on the simulated library *)

Lemma transcriber_py_never_diarizes_witness :
  diarize_model
    (self_of (@TranscriberPy.transcribe_audio (sim well_behaved) "a.wav"
                true true (fresh well_behaved) 0))
  = None.
Proof.
  exact (proj1 (@transcriber_py_never_diarizes (sim well_behaved) "a.wav"
                  true true (fresh well_behaved) 0 eq_refl)).
Defined.

(** X15 on a concrete call: transcriber.py, alignment and no diarization. *)
Lemma transcribe_audio_runs_the_plan_witness :
  let o := @transcribe_audio_in (sim well_behaved) transcriber_py "a.wav"
             true false (fresh well_behaved) 0 in
  exists r,
    outcome o = Ok (Some r)
    /\ stage_kinds (events o) = [Transcription; Alignment]
    /\ ran_pipeline transcriber_py "a.wav" true false (events o) r.
Proof.
  apply (@transcribe_audio_runs_the_plan (sim well_behaved) transcriber_py
           "a.wav" true false (fresh well_behaved) 0).
  - reflexivity.
  - intros _ Hcached; exfalso; apply Hcached; reflexivity.
  - intros _ Hdiarize; discriminate Hdiarize.
  - reflexivity.
Defined.

Lemma first_call_loads_default_model_witness :
  exists r rest,
    events (@transcribe_audio_in (sim well_behaved) gui_py "a.wav" false
              false (@init (sim well_behaved) 0) 0)
    = EvPrint "Loading WhisperX model: small.en"
      :: EvLoadModel "small.en" "cpu" "int8" r :: rest.
Proof.
  exact (proj1 (@first_call_loads_default_model (sim well_behaved) gui_py
                  "a.wav" false false 0 0 eq_refl)).
Defined.

Lemma display_transcription_shows_witness :
  WindowPy.output_text
    (snd (@WindowPy.display_transcription (sim well_behaved)
            (sim_desktop well_behaved)
            (@as_dict _ (sim_desktop well_behaved) ["hello"; "world"])
            (WindowPy.set_align_checkbox true
               (WindowPy.window app_with_file))))
  = ["[0.00s - 1.00s]"; "hello"; ""; "[0.00s - 1.00s]"; "world"; ""].
Proof.
  rewrite (@display_transcription_shows (sim well_behaved)
             (sim_desktop well_behaved)).
  - reflexivity.
  - cbn; repeat (apply Forall_cons || apply Forall_nil);
      (split; [discriminate | intros _; split; discriminate]).
Defined.

Lemma display_transcription_missing_text_witness :
  fst (@WindowPy.display_transcription (sim well_behaved)
         (sim_desktop well_behaved) broken_result
         (snd (WindowPy.start_transcription
                 (WindowPy.set_diarize_checkbox true
                    (WindowPy.window app_with_file)))))
  = Raise "'text'".
Proof.
  rewrite (@display_transcription_missing_text (sim well_behaved)
             (sim_desktop well_behaved) broken_result
             [mkSegment (Some 0) (Some 1) (Some "hello") (Some "SPEAKER_00")]
             [] (mkSegment (Some 1) (Some 2) None None)).
  - reflexivity.
  - reflexivity.
  - apply Forall_cons; [| apply Forall_nil].
    split; [discriminate | intros E; discriminate E].
  - reflexivity.
  - intros E; discriminate E.
Defined.

(** After that failure the window is left with its buttons disabled. *)
Example missing_text_leaves_buttons_disabled :
  let win :=
    snd (@WindowPy.display_transcription (sim well_behaved)
           (sim_desktop well_behaved) broken_result
           (snd (WindowPy.start_transcription
                   (WindowPy.set_diarize_checkbox true
                      (WindowPy.window app_with_file))))) in
  WindowPy.transcribe_button win = false
  /\ WindowPy.save_button win = false
  /\ WindowPy.output_text win = ["Speaker SPEAKER_00:"; "hello"; ""].
Proof. repeat split. Qed.

Lemma app_with_file_reachable :
  @WindowPy.reachable (sim well_behaved) (sim_desktop well_behaved)
    app_with_file.
Proof.
  eapply WindowPy.reach_step; [| exact (WindowPy.SelectFile _)].
  exact (@WindowPy.reach_new (sim well_behaved) (sim_desktop well_behaved) 0).
Qed.

Lemma app_started_twice_reachable :
  @WindowPy.reachable (sim well_behaved) (sim_desktop well_behaved)
    app_started_twice.
Proof.
  unfold app_started_twice.
  eapply WindowPy.reach_step;
    [| refine (WindowPy.ClickTranscribe _ _); reflexivity].
  eapply WindowPy.reach_step; [| exact (WindowPy.SelectFile _)].
  eapply WindowPy.reach_step;
    [| refine (WindowPy.ClickTranscribe app_with_file _); reflexivity].
  exact app_with_file_reachable.
Qed.

Lemma reachable_consistent_witness :
  @WindowPy.consistent (sim well_behaved) (sim_desktop well_behaved)
    app_started_twice.
Proof.
  exact (@reachable_consistent (sim well_behaved) (sim_desktop well_behaved)
           app_started_twice app_started_twice_reachable).
Defined.

Lemma transcribe_click_starts_a_thread_witness :
  exists file,
    WindowPy.audio_file (WindowPy.window app_with_file) = Some file
    /\ fst (WindowPy.start_transcription (WindowPy.window app_with_file))
       = Ok (GuiPy.mkThread file false false).
Proof.
  exact (@transcribe_click_starts_a_thread (sim well_behaved)
           (sim_desktop well_behaved) app_with_file
           app_with_file_reachable eq_refl).
Defined.

Lemma second_transcription_can_start_before_first_ends_witness :
  @WindowPy.reachable (sim well_behaved) (sim_desktop well_behaved)
    app_started_twice
  /\ WindowPy.running app_started_twice
     = [GuiPy.mkThread "a.wav" false false;
        GuiPy.mkThread "a.wav" false false].
Proof.
  destruct (@second_transcription_can_start_before_first_ends
              (sim well_behaved) (sim_desktop well_behaved) app_with_file
              app_with_file_reachable eq_refl)
    as (Hreach & _ & _).
  - discriminate.
  - split; [exact Hreach | reflexivity].
Defined.
